(** * ProTeX (Python version): the per-line recogniser of [protex.py]

    A shallow embedding of [src/protex.py].  Python [str] values are Rocq
    strings whose characters are read as code points 0..255; the dictionary
    [state] and the [argparse] namespace [opts] have fixed keys and are
    records; [print] appends one item to the list of printed strings, and the
    functions that mutate [state] and print live in a small state-and-output
    monad. *)

From Stdlib Require Import String Ascii List Bool Arith NArith Lia.
Import ListNotations.
Open Scope list_scope.
Open Scope string_scope.

(** ** Python string operations *)

Module PyStr.

Definition LF : ascii := "010"%char.
Definition nl : string := String LF "".

(** [str.isspace] on one character, for the code points below 256. *)
Definition isspace (c : ascii) : bool :=
  let n := N_of_ascii c in
  ((9 <=? n) && (n <=? 13) || (28 <=? n) && (n <=? 32)
   || (n =? 133) || (n =? 160))%N.

(** [s.rstrip(ch)] for a one-character argument. *)
Fixpoint rstrip (ch : ascii) (s : string) : string :=
  match s with
  | "" => ""
  | String c s' =>
      let r := rstrip ch s' in
      if Ascii.eqb c ch && (r =? "") then "" else String c r
  end.

(** [s.lstrip()] *)
Fixpoint lstrip (s : string) : string :=
  match s with
  | "" => ""
  | String c s' => if isspace c then lstrip s' else s
  end.

Definition exhausted (maxcount : option N) : bool :=
  match maxcount with Some k => (k =? 0)%N | None => false end.

Definition decr (maxcount : option N) : option N :=
  match maxcount with Some k => Some (N.pred k) | None => None end.

(** The loop of [s.split(None, maxsplit)]: [cur] is the word being read, if
    any; [maxcount] the number of words that may still be started ([None] when
    the call gives no [maxsplit]).  Once it is used up, the rest of the string,
    from its first character that is not white space, is the last field. *)
Fixpoint split_loop (maxcount : option N) (cur : option string) (s : string)
  : list string :=
  match s with
  | "" => match cur with Some w => [w] | None => [] end
  | String c s' =>
      match cur with
      | Some w =>
          if isspace c then w :: split_loop maxcount None s'
          else split_loop maxcount (Some (w ++ String c "")) s'
      | None =>
          if isspace c then split_loop maxcount None s'
          else if exhausted maxcount then [s]
          else split_loop (decr maxcount) (Some (String c "")) s'
      end
  end.

Definition split (s : string) (maxsplit : option N) : list string :=
  split_loop maxsplit None s.

(** [sep.join(l)] *)
Fixpoint join (sep : string) (l : list string) : string :=
  match l with
  | [] => ""
  | [x] => x
  | x :: l' => x ++ sep ++ join sep l'
  end.

(** [s.replace(old, new)] for a one-character [old]. *)
Fixpoint replace (old : ascii) (new : string) (s : string) : string :=
  match s with
  | "" => ""
  | String c s' =>
      if Ascii.eqb c old then new ++ replace old new s'
      else String c (replace old new s')
  end.

(** [s.startswith(p)] *)
Definition startswith (s p : string) : bool := String.prefix p s.

(** [sub in s] *)
Fixpoint contains (sub s : string) : bool :=
  match s with
  | "" => String.prefix sub ""
  | String _ s' => String.prefix sub s || contains sub s'
  end.

(** [s[k:]] *)
Fixpoint drop (k : nat) (s : string) : string :=
  match k, s with
  | O, _ => s
  | S k', String _ s' => drop k' s'
  | S _, "" => ""
  end.

(** [os.path.basename]: what follows the last slash. *)
Fixpoint basename_from (acc s : string) : string :=
  match s with
  | "" => acc
  | String c s' =>
      if Ascii.eqb c "/"%char then basename_from "" s'
      else basename_from (acc ++ String c "") s'
  end.

Definition basename (p : string) : string := basename_from "" p.


End PyStr.

Import PyStr.

(** ** Token table, options, document state *)

Inductive Lang : Type := LangF | LangA | LangC | LangS.

Record Tokens : Type := mkTokens {
  comment : string;
  bop : string;  eop : string;
  boi : string;  eoi : string;
  bopi : string; eopi : string;
  boc : string;  eoc : string;
  boe : string;  eoe : string
}.

(** [language_tokens] of [main]. *)
Definition language_tokens (lang : Lang) : Tokens :=
  match lang with
  | LangF => mkTokens "!" "!BOP" "!EOP" "!BOI" "!EOI" "!BOPI" "!EOPI"
                      "!BOC" "!EOC" "!BOE" "!EOE"
  | LangA => mkTokens "--" "--BOP" "--EOP" "--BOI" "--EOI" "--BOPI" "--EOPI"
                      "--BOC" "--EOC" "--BOE" "--EOE"
  | LangC => mkTokens "//" "//BOP" "//EOP" "//BOI" "//EOI" "//BOPI" "//EOPI"
                      "//BOC" "//EOC" "//BOE" "//EOE"
  | LangS => mkTokens "#" "#BOP" "#EOP" "#BOI" "#EOI" "#BOPI" "#EOPI"
                      "#BOC" "#EOC" "#BOE" "#EOE"
  end.

(** The parsed command line ([argparse.Namespace]).  The one-letter options
    [n], [l], [s], [f], [A], [C], [F], [S] carry the prefix [opt_]. *)
Record Opts : Type := mkOpts {
  files : list string;
  bare : bool;
  opt_A : bool; opt_C : bool; opt_F : bool; opt_S : bool;
  opt_n : bool; opt_l : bool; opt_s : bool;
  nolatex : bool;
  opt_f : bool;
  internal : bool;
  keys : list string;
  style : option string
}.

Definition default_keys : list string :=
  [ "!INTERFACE:"; "!USES:"; "!PUBLIC TYPES:"; "!PRIVATE TYPES:";
    "!PUBLIC MEMBER FUNCTIONS:"; "!PRIVATE MEMBER FUNCTIONS:";
    "!PUBLIC DATA MEMBERS:"; "!PARAMETERS:"; "!ARGUMENTS:";
    "!DEFINED PARAMETERS:"; "!INPUT PARAMETERS:"; "!INPUT/OUTPUT PARAMETERS:";
    "!OUTPUT PARAMETERS:"; "!RETURN VALUE:"; "!REVISION HISTORY:";
    "!BUGS:"; "!SEE ALSO:"; "!SYSTEM ROUTINES:"; "!FILES USED:";
    "!REMARKS:"; "!TO DO:"; "!CALLING SEQUENCE:"; "!AUTHOR:";
    "!CALLED FROM:"; "!LOCAL VARIABLES:" ].

(** The options of a command line without any switch. *)
Definition default_opts (fs : list string) : Opts :=
  mkOpts fs false false false false false false false false false false false
         default_keys None.

(** The dictionary [state] of [main]. *)
Record State : Type := mkState {
  intro : bool;
  prologue : bool;
  first : bool;
  source : bool;
  verb : bool;
  tpage : bool;
  begdoc : bool;
  not_first : bool;
  have_name : bool;
  have_desc : bool;
  have_intf : bool;
  have_hist : bool;
  name_is : string;
  title : string;
  author : string;
  affiliation : string;
  doc_date : string
}.

Definition initial_state : State :=
  mkState false false true false false false false false
          false false false false "UNKNOWN" "" "" "" "".

(** [state[key] = v], one function per key that the program assigns. *)
Definition set_intro (v : bool) (s : State) : State :=
  mkState v (prologue s) (first s) (source s) (verb s) (tpage s) (begdoc s)
    (not_first s) (have_name s) (have_desc s) (have_intf s) (have_hist s)
    (name_is s) (title s) (author s) (affiliation s) (doc_date s).
Definition set_prologue (v : bool) (s : State) : State :=
  mkState (intro s) v (first s) (source s) (verb s) (tpage s) (begdoc s)
    (not_first s) (have_name s) (have_desc s) (have_intf s) (have_hist s)
    (name_is s) (title s) (author s) (affiliation s) (doc_date s).
Definition set_first (v : bool) (s : State) : State :=
  mkState (intro s) (prologue s) v (source s) (verb s) (tpage s) (begdoc s)
    (not_first s) (have_name s) (have_desc s) (have_intf s) (have_hist s)
    (name_is s) (title s) (author s) (affiliation s) (doc_date s).
Definition set_source (v : bool) (s : State) : State :=
  mkState (intro s) (prologue s) (first s) v (verb s) (tpage s) (begdoc s)
    (not_first s) (have_name s) (have_desc s) (have_intf s) (have_hist s)
    (name_is s) (title s) (author s) (affiliation s) (doc_date s).
Definition set_verb (v : bool) (s : State) : State :=
  mkState (intro s) (prologue s) (first s) (source s) v (tpage s) (begdoc s)
    (not_first s) (have_name s) (have_desc s) (have_intf s) (have_hist s)
    (name_is s) (title s) (author s) (affiliation s) (doc_date s).
Definition set_tpage (v : bool) (s : State) : State :=
  mkState (intro s) (prologue s) (first s) (source s) (verb s) v (begdoc s)
    (not_first s) (have_name s) (have_desc s) (have_intf s) (have_hist s)
    (name_is s) (title s) (author s) (affiliation s) (doc_date s).
Definition set_begdoc (v : bool) (s : State) : State :=
  mkState (intro s) (prologue s) (first s) (source s) (verb s) (tpage s) v
    (not_first s) (have_name s) (have_desc s) (have_intf s) (have_hist s)
    (name_is s) (title s) (author s) (affiliation s) (doc_date s).
Definition set_not_first (v : bool) (s : State) : State :=
  mkState (intro s) (prologue s) (first s) (source s) (verb s) (tpage s)
    (begdoc s) v (have_name s) (have_desc s) (have_intf s) (have_hist s)
    (name_is s) (title s) (author s) (affiliation s) (doc_date s).
Definition set_have_name (v : bool) (s : State) : State :=
  mkState (intro s) (prologue s) (first s) (source s) (verb s) (tpage s)
    (begdoc s) (not_first s) v (have_desc s) (have_intf s) (have_hist s)
    (name_is s) (title s) (author s) (affiliation s) (doc_date s).
Definition set_have_desc (v : bool) (s : State) : State :=
  mkState (intro s) (prologue s) (first s) (source s) (verb s) (tpage s)
    (begdoc s) (not_first s) (have_name s) v (have_intf s) (have_hist s)
    (name_is s) (title s) (author s) (affiliation s) (doc_date s).
Definition set_have_intf (v : bool) (s : State) : State :=
  mkState (intro s) (prologue s) (first s) (source s) (verb s) (tpage s)
    (begdoc s) (not_first s) (have_name s) (have_desc s) v (have_hist s)
    (name_is s) (title s) (author s) (affiliation s) (doc_date s).
Definition set_have_hist (v : bool) (s : State) : State :=
  mkState (intro s) (prologue s) (first s) (source s) (verb s) (tpage s)
    (begdoc s) (not_first s) (have_name s) (have_desc s) (have_intf s) v
    (name_is s) (title s) (author s) (affiliation s) (doc_date s).
Definition set_name_is (v : string) (s : State) : State :=
  mkState (intro s) (prologue s) (first s) (source s) (verb s) (tpage s)
    (begdoc s) (not_first s) (have_name s) (have_desc s) (have_intf s)
    (have_hist s) v (title s) (author s) (affiliation s) (doc_date s).
Definition set_title (v : string) (s : State) : State :=
  mkState (intro s) (prologue s) (first s) (source s) (verb s) (tpage s)
    (begdoc s) (not_first s) (have_name s) (have_desc s) (have_intf s)
    (have_hist s) (name_is s) v (author s) (affiliation s) (doc_date s).
Definition set_author (v : string) (s : State) : State :=
  mkState (intro s) (prologue s) (first s) (source s) (verb s) (tpage s)
    (begdoc s) (not_first s) (have_name s) (have_desc s) (have_intf s)
    (have_hist s) (name_is s) (title s) v (affiliation s) (doc_date s).
Definition set_affiliation (v : string) (s : State) : State :=
  mkState (intro s) (prologue s) (first s) (source s) (verb s) (tpage s)
    (begdoc s) (not_first s) (have_name s) (have_desc s) (have_intf s)
    (have_hist s) (name_is s) (title s) (author s) v (doc_date s).
Definition set_doc_date (v : string) (s : State) : State :=
  mkState (intro s) (prologue s) (first s) (source s) (verb s) (tpage s)
    (begdoc s) (not_first s) (have_name s) (have_desc s) (have_intf s)
    (have_hist s) (name_is s) (title s) (author s) (affiliation s) v.

(** ** Commands: the state is threaded, the printed items are collected *)

Definition M (A : Type) : Type := State -> A * State * list string.

Definition ret {A : Type} (a : A) : M A := fun s => (a, s, []).

Definition bind {A B : Type} (m : M A) (k : A -> M B) : M B :=
  fun s =>
    let '(a, s1, o1) := m s in
    let '(b, s2, o2) := k a s1 in
    (b, s2, (o1 ++ o2)%list).

Definition get : M State := fun s => (s, s, []).
Definition assign (f : State -> State) : M unit := fun s => (tt, f s, []).
Definition print (x : string) : M unit := fun s => (tt, s, [x]).
Definition when (b : bool) (m : M unit) : M unit := if b then m else ret tt.

Declare Scope cmd_scope.
Delimit Scope cmd_scope with cmd.
Notation "x <- m ;; k" := (bind m (fun x => k))
  (at level 61, m at next level, right associativity) : cmd_scope.
Notation "m ;; k" := (bind m (fun _ => k))
  (at level 61, right associativity) : cmd_scope.
Open Scope cmd_scope.

Definition state_of {A : Type} (r : A * State * list string) : State :=
  snd (fst r).
Definition output_of {A : Type} (r : A * State * list string) : list string :=
  snd r.

(** [fields.pop(0)]; the list is never empty where the program calls it. *)
Definition pop0 (fields : list string) : list string := tl fields.

Definition sep_line : string :=
  nl ++ " %/////////////////////////////////////////////////////////////".
Definition hrule_line : string := nl ++ "\mbox{}\hrulefill\".
Definition banner_line : string :=
  "\section{Routine/Function Prologues} \label{app:ProLogues}".
Definition begin_verbatim : string := "\begin{verbatim}".
Definition end_verbatim : string := "\end{verbatim}".

Definition do_beg (bare : bool) : M unit :=
  if bare then ret tt
  else
    st <- get ;;
    if negb (begdoc st) then
      when (tpage st)
        (print ("\title{" ++ title st ++ "}") ;;
         print ("\author{{\sc " ++ author st ++ "}\\ {\em "
                ++ affiliation st ++ "}}") ;;
         print ("\date{" ++ doc_date st ++ "}")) ;;
      print "\begin{document}" ;;
      when (tpage st) (print "\maketitle") ;;
      print "\tableofcontents" ;;
      print "\newpage" ;;
      assign (set_begdoc true)
    else ret tt.

Definition do_eoc : M unit :=
  st <- get ;;
  when (verb st) (print end_verbatim ;; assign (set_verb false)) ;;
  assign (set_source false).

Definition set_missing : M unit :=
  assign (set_have_name false) ;;
  assign (set_have_desc false) ;;
  assign (set_have_intf false) ;;
  assign (set_have_hist false) ;;
  assign (set_name_is "UNKNOWN").

(** ** One input line: the body of the [for] loop of [process_file] *)

(** [mi]: 1 when the first field is a lone exclamation mark, else 0. *)
Definition marker_index (fields : list string) : nat :=
  match fields with
  | f0 :: _ => if f0 =? "!" then 1 else 0
  | [] => 0
  end.

(** [if mi == 1: fields.pop(0)] followed by [fields.pop(0)]. *)
Definition pop_marker (mi : nat) (fields : list string) : list string :=
  pop0 (if (mi =? 1)%nat then pop0 fields else fields).

Definition argument_words : list string :=
  ["USES"; "INPUT"; "OUTPUT"; "PARAMETERS"; "VALUE"; "ARGUMENTS"].

(** Lines 322-337, the block under [fields[mi] == tokens["bop"]]. *)
Definition bop_block (opts : Opts) : M unit :=
  st <- get ;;
  when (source st) do_eoc ;;
  print sep_line ;;
  do_beg (bare opts) ;;
  st <- get ;;
  (if negb (first st) then print hrule_line
   else when (negb (bare opts)) (print banner_line)) ;;
  assign (set_first false) ;;
  assign (set_prologue true) ;;
  assign (set_verb false) ;;
  assign (set_source false) ;;
  set_missing.

(** Lines 340-358, the block under [fields[mi] == tokens["bopi"]], which
    the source writes out a second time. *)
Definition bopi_block (opts : Opts) : M unit :=
  if internal opts then assign (set_prologue false)
  else
    st <- get ;;
    when (source st) do_eoc ;;
    print sep_line ;;
    do_beg (bare opts) ;;
    st <- get ;;
    (if negb (first st) then print hrule_line
     else when (negb (bare opts)) (print banner_line)) ;;
    assign (set_first false) ;;
    assign (set_prologue true) ;;
    assign (set_verb false) ;;
    assign (set_source false) ;;
    set_missing.

(** Lines 427-439, the body of the keyword loop once [key in line] holds. *)
Definition key_block (key line : string) : M unit :=
  st <- get ;;
  (if verb st then print end_verbatim ;; assign (set_verb false)
   else print (nl ++ "\bigskip")) ;;
  let label := drop 1 key in
  (if existsb (fun x => contains x line) argument_words
   then print ("{\em " ++ label ++ "}")
   else print ("{\sf " ++ label ++ "}")) ;;
  print begin_verbatim ;;
  assign (set_verb true).

(** Lines 407-419, the block under the test for [!DESCRIPTION:]. *)
Definition description_block (opts : Opts) (line : string) : M unit :=
  st <- get ;;
  when (verb st)
    (print end_verbatim ;;
     print "{\sf DESCRIPTION:\\ }" ;;
     print "" ;;
     assign (set_verb false)) ;;
  (if nolatex opts then print begin_verbatim ;; assign (set_verb true)
   else
     let parts := split line None in
     let start := if nth 0 parts "" =? "!" then 1 else 0 in
     print (join " " (skipn (start + 1) parts))) ;;
  assign (set_have_desc true).

(** The body of the loop; every [continue] of the source ends a branch
    here.  The nested tests of lines 277-314 are flattened: each keyword
    test repeats the guard of line 277. *)
Definition process_line (tokens : Tokens) (opts : Opts)
    (file_basename : string) (raw : string) : M unit :=
  let line := lstrip (rstrip LF raw) in
  let fields := split line (Some 9999%N) in
  let mi := marker_index fields in
  let fmi := nth mi fields "" in
  if (length fields <=? mi)%nat then ret tt
  else if (mi <? length fields)%nat && (fmi =? "!QUOTE:") then
    print (join " " (skipn (mi + 1) fields))
  else if fmi =? boi tokens then assign (set_intro true)
  else
    st <- get ;;
    let in_intro := intro st && (mi + 1 <? length fields)%nat in
    let marker := nth (mi + 1) fields "" in
    if in_intro && (marker =? "!TITLE:") then
      assign (set_title (join " " (pop_marker mi fields))) ;;
      assign (set_tpage true)
    else if in_intro && (marker =? "!AUTHORS:") then
      assign (set_author (join " " (pop_marker mi fields))) ;;
      assign (set_tpage true)
    else if in_intro && (marker =? "!AFFILIATION:") then
      assign (set_affiliation (join " " (pop_marker mi fields))) ;;
      assign (set_tpage true)
    else if in_intro && (marker =? "!DATE:") then
      assign (set_doc_date (join " " (pop_marker mi fields))) ;;
      assign (set_tpage true)
    else if in_intro && (marker =? "!INTRODUCTION:") then
      do_beg (bare opts) ;;
      print " %.............................................." ;;
      print ("\section{" ++ join " " (pop_marker mi fields) ++ "}")
    else if fmi =? eoi tokens then
      print sep_line ;;
      print "\newpage" ;;
      assign (set_intro false)
    else if fmi =? bop tokens then bop_block opts
    else if fmi =? bopi tokens then bopi_block opts
    else if prologue st && (fmi =? "!MODULE:") then
      let module_name :=
        replace "_"%char "\_" (join " " (pop_marker mi fields)) in
      when (opt_n opts) (print "\newpage") ;;
      (if negb (opt_f opts) then
         print ("\subsection{Fortran:  Module Interface " ++ module_name
                ++ " (Source File: " ++ file_basename ++ ")}" ++ nl)
       else
         print ("\subsection{Fortran:  Module Interface " ++ module_name
                ++ "}" ++ nl)) ;;
      assign (set_have_name true) ;;
      assign (set_have_intf true) ;;
      assign (set_not_first true)
    else if prologue st && (fmi =? "!ROUTINE:") then
      let routine_name :=
        replace "_"%char "\_" (join " " (pop_marker mi fields)) in
      when (opt_n opts && not_first st) (print "\newpage") ;;
      (if negb (opt_f opts) then
         print ("\subsubsection{" ++ routine_name
                ++ " (Source File: " ++ file_basename ++ ")}" ++ nl)
       else print ("\subsubsection{" ++ routine_name ++ "}" ++ nl)) ;;
      assign (set_have_name true) ;;
      assign (set_not_first true)
    else if prologue st && (fmi =? "!IROUTINE:") then
      let routine_name :=
        replace "_"%char "\_" (join " " (pop_marker mi fields)) in
      let words := split routine_name None in
      let label := if (1 <? length words)%nat then nth 1 words "" else "" in
      print ("\subsubsection [" ++ label ++ "]{" ++ routine_name ++ "}"
             ++ nl) ;;
      assign (set_have_name true)
    else if prologue st && contains "!DESCRIPTION:" line then
      description_block opts line
    else
      match (if prologue st
             then find (fun key => contains key line) (keys opts)
             else None) with
      | Some key => key_block key line
      | None =>
          if (fmi =? eop tokens) || (fmi =? eopi tokens) then
            when (verb st) (print end_verbatim ;; assign (set_verb false)) ;;
            assign (set_prologue false)
          else if fmi =? boc tokens then
            print sep_line ;;
            assign (set_first false) ;;
            assign (set_prologue false) ;;
            assign (set_source true) ;;
            print (nl ++ begin_verbatim) ;;
            assign (set_verb true)
          else if fmi =? eoc tokens then
            do_eoc ;;
            assign (set_prologue false)
          else if fmi =? boe tokens then
            when (source st) do_eoc ;;
            print sep_line ;;
            assign (set_first false) ;;
            assign (set_prologue true) ;;
            assign (set_verb false) ;;
            assign (set_source false)
          else if fmi =? eoe tokens then
            when (verb st) (print end_verbatim ;; assign (set_verb false)) ;;
            assign (set_prologue false)
          else if prologue st || intro st then
            print (if startswith line (comment tokens)
                   then drop (String.length (comment tokens)) line
                   else line)
          else if source st then print line
          else ret tt
      end.

(** ** A whole file, and the run *)

(** [for line in f: ...] *)
Fixpoint process_lines (tokens : Tokens) (opts : Opts)
    (file_basename : string) (f : list string) : M unit :=
  match f with
  | [] => ret tt
  | raw :: f' =>
      process_line tokens opts file_basename raw ;;
      process_lines tokens opts file_basename f'
  end.

Definition file_basename_of (filename : string) : string :=
  replace "_"%char "\_"
    (if negb (filename =? "-") then basename filename else "Standard Input").

Definition file_banner (file_basename file_date : string) : string :=
  nl ++ "\markboth{Left}{Source File: " ++ file_basename ++ ",  Date: "
     ++ file_date ++ "}" ++ nl.

Definition eof_separator : string :=
  "%...............................................................".

(** [process_file]; [now] is what [datetime.now().strftime(...)] returns at
    the call, [f] the lines that iterating over the file yields. *)
Definition process_file (now : string) (f : list string) (filename : string)
    (tokens : Tokens) (opts : Opts) : M unit :=
  let file_basename := file_basename_of filename in
  let file_date := now in
  print (file_banner file_basename file_date) ;;
  process_lines tokens opts file_basename f ;;
  print "" ;;
  st <- get ;;
  when (source st) do_eoc ;;
  print eof_separator.

Definition print_notice : list string :=
  [ "%                **** IMPORTANT NOTICE *****";
    "% This LaTeX file was automatically generated by ProTeX (Python version)";
    "% Any changes made to this file will likely be lost next time";
    "% it is regenerated from its source. Send questions to your_email@example.com"
      ++ nl ].

(** [if custom_style:] holds for a string that is not empty. *)
Definition truthy (custom_style : option string) : option string :=
  match custom_style with
  | Some x => if x =? "" then None else Some x
  | None => None
  end.

Definition documentclass_line (custom_style : option string) : string :=
  match truthy custom_style with
  | Some x => "\documentclass[11pt]{" ++ x ++ "}"
  | None => "\documentclass[11pt]{article}"
  end.

Definition usepackage_lines (custom_style : option string) : list string :=
  match truthy custom_style with
  | Some x => ["\usepackage{" ++ x ++ "}"]
  | None => []
  end.

Definition print_preamble (custom_style : option string) : list string :=
  (["%------------------------ PREAMBLE --------------------------";
    documentclass_line custom_style;
    "\usepackage{amsmath}"]
   ++ usepackage_lines custom_style
   ++ [ "\textheight     9in"; "\topmargin      0pt"; "\headsep        1cm";
        "\headheight     0pt"; "\textwidth      6in"; "\oddsidemargin  0in";
        "\evensidemargin 0in"; "\marginparpush  0pt"; "\pagestyle{myheadings}";
        "\markboth{}{}";
        "%-------------------------------------------------------------";
        "\setlength{\parskip}{0pt}"; "\setlength{\parindent}{0pt}";
        "\setlength{\baselineskip}{11pt}" ])%list.

Definition print_macros : list string :=
  [ nl ++ "%--------------------- SHORT-HAND MACROS ----------------------";
    "\def\bv{\begin{verbatim}}"; "\def\ev{\end{verbatim}}";
    "\def\be{\begin{equation}}"; "\def\ee{\end{equation}}";
    "\def\bea{\begin{eqnarray}}"; "\def\eea{\end{eqnarray}}";
    "\def\bi{\begin{itemize}}"; "\def\ei{\end{itemize}}";
    "\def\bn{\begin{enumerate}}"; "\def\en{\end{enumerate}}";
    "\def\bd{\begin{description}}"; "\def\ed{\end{description}}";
    "\def\({\left (}"; "\def\){\right )}";
    "\def\[{\left [}"; "\def\]{\right ]}";
    "\def\<{\left \langle}"; "\def\>{\right \rangle}";
    "\def\cI{{\cal I}}"; "\def\diag{\mathop{\rm diag}}";
    "\def\tr{\mathop{\rm tr}}";
    "%-------------------------------------------------------------" ].

(** What the run reads: the lines on standard input, the files that can be
    opened with their lines, and the clock, whose [i]-th reading is the date
    of the [i]-th file processed. *)
Record World : Type := mkWorld {
  stdin : list string;
  open_file : string -> option (list string);
  clock : nat -> string
}.

Definition select_lang (opts : Opts) : Lang :=
  if opt_A opts then LangA
  else if opt_C opts then LangC
  else if opt_S opts then LangS
  else LangF.

(** The loop over the file names.  Standard input is read to its end by the
    first file that names it; a file that cannot be opened raises, which ends
    the run ([false]) with what was printed so far. *)
Fixpoint files_loop (w : World) (tokens : Tokens) (opts : Opts)
    (i : nat) (input : list string) (names : list string) (st : State)
  : bool * State * list string :=
  match names with
  | [] => (true, st, [])
  | filename :: names' =>
      if (filename =? "-") || (filename =? "") then
        let '(_, st1, o1) :=
          process_file (clock w i) input filename tokens opts st in
        let '(ok, st2, o2) :=
          files_loop w tokens opts (S i) [] names' st1 in
        (ok, st2, (o1 ++ o2)%list)
      else
        match open_file w filename with
        | None => (false, st, [])
        | Some f =>
            let '(_, st1, o1) :=
              process_file (clock w i) f filename tokens opts st in
            let '(ok, st2, o2) :=
              files_loop w tokens opts (S i) input names' st1 in
            (ok, st2, (o1 ++ o2)%list)
        end
  end.

(** [main] after [parse_args]: what is printed, and whether the run reached
    its end. *)
Definition main (w : World) (opts : Opts) : bool * list string :=
  let tokens := language_tokens (select_lang opts) in
  let names := match files opts with [] => ["-"] | _ => files opts end in
  let head :=
    (print_notice
     ++ (if negb (bare opts) then print_preamble (style opts) else [])
     ++ print_macros)%list in
  let '(ok, _, body) :=
    files_loop w tokens opts 0 (stdin w) names initial_state in
  (ok, (head ++ body
        ++ (if ok && negb (bare opts) then ["\end{document}"] else []))%list).



(** ** Vocabulary of the statements *)

(** What [process_line] computes from the raw line before it tests
    anything: the stripped line, its fields, the marker index, the field at
    that index, and the fields after it. *)
Definition line_of (raw : string) : string := lstrip (rstrip LF raw).
Definition fields_of (raw : string) : list string :=
  split (line_of raw) (Some 9999%N).
Definition mi_of (raw : string) : nat := marker_index (fields_of raw).
Definition marker_of (raw : string) : string :=
  nth (mi_of raw) (fields_of raw) "".
Definition rest_of (raw : string) : list string :=
  skipn (mi_of raw + 1) (fields_of raw).


Definition intro_keywords : list string :=
  ["!TITLE:"; "!AUTHORS:"; "!AFFILIATION:"; "!DATE:"; "!INTRODUCTION:"].

(** The introduction rule (lines 277-314) takes the line: the state is in
    the introduction and the field after the marker is one of its keywords. *)
Definition intro_rule_fires (st : State) (raw : string) : bool :=
  intro st && (mi_of raw + 1 <? length (fields_of raw))%nat
  && existsb (String.eqb (nth (mi_of raw + 1) (fields_of raw) ""))
       intro_keywords.

(** No white space in a string; no line feed in a string. *)
Fixpoint nospace (s : string) : bool :=
  match s with
  | "" => true
  | String c s' => negb (isspace c) && nospace s'
  end.

Fixpoint no_lf (s : string) : bool :=
  match s with
  | "" => true
  | String c s' => negb (Ascii.eqb c LF) && no_lf s'
  end.

(** The ten block markers of a language. *)
Definition all_markers (tokens : Tokens) : list string :=
  [ boi tokens; eoi tokens; bop tokens; bopi tokens; eop tokens;
    eopi tokens; boc tokens; eoc tokens; boe tokens; eoe tokens ].

(** The marker field is the quote marker or a block marker. *)
Definition marker_line (tokens : Tokens) (raw : string) : bool :=
  existsb (String.eqb (marker_of raw)) ("!QUOTE:" :: all_markers tokens).





(** What [do_beg] prints when it prints. *)
Definition title_items (st : State) : list string :=
  [ "\title{" ++ title st ++ "}";
    "\author{{\sc " ++ author st ++ "}\\ {\em " ++ affiliation st ++ "}}";
    "\date{" ++ doc_date st ++ "}" ].

Definition header_items (st : State) : list string :=
  ((if tpage st then title_items st else [])
   ++ ["\begin{document}"]
   ++ (if tpage st then ["\maketitle"] else [])
   ++ ["\tableofcontents"; "\newpage"])%list.



(** [process_file] after its banner. *)
Definition file_body (tokens : Tokens) (opts : Opts) (fb : string)
    (f : list string) : M unit :=
  process_lines tokens opts fb f ;;
  print "" ;;
  st <- get ;;
  when (source st) do_eoc ;;
  print eof_separator.

(** Options and worlds that differ in one component. *)
Definition with_l (b : bool) (o : Opts) : Opts :=
  mkOpts (files o) (bare o) (opt_A o) (opt_C o) (opt_F o) (opt_S o)
    (opt_n o) b (opt_s o) (nolatex o) (opt_f o) (internal o) (keys o)
    (style o).
Definition with_s (b : bool) (o : Opts) : Opts :=
  mkOpts (files o) (bare o) (opt_A o) (opt_C o) (opt_F o) (opt_S o)
    (opt_n o) (opt_l o) b (nolatex o) (opt_f o) (internal o) (keys o)
    (style o).
Definition with_bare (b : bool) (o : Opts) : Opts :=
  mkOpts (files o) b (opt_A o) (opt_C o) (opt_F o) (opt_S o)
    (opt_n o) (opt_l o) (opt_s o) (nolatex o) (opt_f o) (internal o) (keys o)
    (style o).
Definition with_clock (c : nat -> string) (w : World) : World :=
  mkWorld (stdin w) (open_file w) c.

(** Two printed items agree, or are the banner of one file at two dates. *)
Definition same_but_date (x y : string) : Prop :=
  x = y \/ exists fb d1 d2, x = file_banner fb d1 /\ y = file_banner fb d2.

(** A command keeps a property of the state. *)
Definition keeps {A : Type} (P : State -> Prop) (m : M A) : Prop :=
  forall st, P st -> P (state_of (m st)).

(** Inputs of the examples below. *)
Definition tokensF : Tokens := language_tokens LangF.
Definition a_date : string := "2025-02-01 12:00:00".

Definition two_files : World :=
  mkWorld []
    (fun name =>
       if name =? "a.f90" then Some ["!BOP"; "!ROUTINE: f"; "!EOP"]
       else if name =? "b.f90" then Some ["!BOP"; "!ROUTINE: g"; "!EOP"]
       else None)
    (fun _ => a_date).

(** ** Vocabulary of the further properties *)

(** A field: a string that is not empty and has no white space. *)
Definition word (w : string) : bool := nospace w && negb (w =? "").

(** White space only. *)
Fixpoint all_space (s : string) : bool :=
  match s with
  | "" => true
  | String c s' => isspace c && all_space s'
  end.

(** No slash in a string. *)
Fixpoint no_slash (s : string) : bool :=
  match s with
  | "" => true
  | String c s' => negb (Ascii.eqb c "/"%char) && no_slash s'
  end.

(** The escape of underscores that every heading and banner goes through. *)
Definition escape (s : string) : string := replace "_"%char "\_" s.

(** The state without the keys that the program writes and never reads. *)
Definition forget (st : State) : State :=
  set_name_is "UNKNOWN"
    (set_have_hist false
       (set_have_intf false (set_have_desc false (set_have_name false st)))).

(** Two commands agree on related states: same value, same output, related
    states again. *)
Definition agree {A : Type} (R : State -> State -> Prop) (m1 m2 : M A)
  : Prop :=
  forall s1 s2, R s1 s2 ->
    fst (fst (m1 s1)) = fst (fst (m2 s2))
    /\ R (state_of (m1 s1)) (state_of (m2 s2))
    /\ output_of (m1 s1) = output_of (m2 s2).

Definition same_visible (s1 s2 : State) : Prop := forget s1 = forget s2.


Definition readable (w : World) (filename : string) : bool :=
  (filename =? "-") || (filename =? "")
  || match open_file w filename with Some _ => true | None => false end.

(** ** Tactics *)

(** [expose raw] opens [process_line] at [raw] and names what it computes
    from the line; [run_cmd] opens the blocks and the commands. *)
Ltac expose raw :=
  unfold process_line; cbv zeta;
  change (split (lstrip (rstrip LF raw)) (Some 9999%N)) with (fields_of raw);
  change (lstrip (rstrip LF raw)) with (line_of raw);
  change (marker_index (fields_of raw)) with (mi_of raw);
  change (nth (mi_of raw) (fields_of raw) "") with (marker_of raw).

Ltac run_cmd :=
  unfold bop_block, bopi_block, key_block, description_block, do_eoc, do_beg,
    set_missing, when, bind, ret, get, assign, print.

Ltac rewrite_false :=
  repeat match goal with H : _ = false |- _ => rewrite H end.

Ltac lang_cases lang :=
  destruct lang; vm_compute; try reflexivity; try congruence.

(** An assignment keeps a property that does not read the assigned key. *)
Ltac assigns := try (intros [] ?; simpl in *; auto; fail).

(** ** Strings and fields *)

Section StringFacts.

Lemma nth_not_default (l : list string) (i : nat) (x : string) :
  nth i l "" = x -> x <> "" -> (i < length l)%nat.
Proof.
  intros Hn Hx. destruct (Nat.lt_ge_cases i (length l)) as [Hlt | Hge]; auto.
  rewrite nth_overflow in Hn by exact Hge. congruence.
Qed.

Lemma marker_index_le_1 (fields : list string) :
  (marker_index fields <= 1)%nat.
Proof.
  destruct fields as [| f0 fs]; simpl; [lia |].
  destruct (f0 =? "!"); lia.
Qed.

Lemma pop_marker_skipn (mi : nat) (fields : list string) :
  (mi <= 1)%nat -> pop_marker mi fields = skipn (mi + 1) fields.
Proof.
  intros H. unfold pop_marker, pop0.
  destruct mi as [| [| k]]; simpl; try lia.
  - destruct fields; reflexivity.
  - destruct fields as [| a [| b l]]; reflexivity.
Qed.

Lemma nth_skipn_0 (k : nat) (l : list string) :
  nth k l "" = nth 0 (skipn k l) "".
Proof.
  revert l; induction k as [| k IH]; intros [| a l]; simpl; auto.
Qed.

Lemma string_app_assoc (a b c : string) : (a ++ b) ++ c = a ++ (b ++ c).
Proof. induction a as [| x a IH]; simpl; [reflexivity | now rewrite IH]. Qed.

Lemma nospace_app (a b : string) :
  nospace (a ++ b) = nospace a && nospace b.
Proof.
  induction a as [| c a IH]; simpl; [reflexivity |].
  rewrite IH. now rewrite andb_assoc.
Qed.

(** The fields that [split] starts before its budget is used up contain no
    white space; only the field that takes the rest of the string may. *)
Lemma split_loop_nospace (s : string) :
  forall (maxcount : option N) (cur : option string) (i : nat),
    match cur with Some w => nospace w = true | None => True end ->
    match maxcount with
    | Some k =>
        (N.of_nat i < k + match cur with Some _ => 1 | None => 0 end)%N
    | None => True
    end ->
    (i < length (split_loop maxcount cur s))%nat ->
    nospace (nth i (split_loop maxcount cur s) "") = true.
Proof.
  induction s as [| c s IH]; intros maxcount cur i Hcur Hi Hlen.
  - destruct cur as [w |]; simpl in *; [| lia].
    destruct i as [| i]; [exact Hcur | simpl in Hlen; lia].
  - simpl in *. destruct cur as [w |].
    + destruct (isspace c) eqn:Hc.
      * destruct i as [| i]; [exact Hcur |].
        simpl in *. apply IH; [exact I | | lia].
        destruct maxcount as [k |]; [lia | exact I].
      * apply IH; [| exact Hi | exact Hlen].
        rewrite nospace_app. simpl. now rewrite Hcur, Hc.
    + destruct (isspace c) eqn:Hc.
      * apply IH; [exact I | exact Hi | exact Hlen].
      * destruct maxcount as [k |]; simpl in *.
        -- destruct (N.eqb_spec k 0) as [-> | Hk]; [lia |].
           apply IH; [simpl; now rewrite Hc | lia | exact Hlen].
        -- apply IH; [simpl; now rewrite Hc | exact I | exact Hlen].
Qed.

Lemma fields_nospace (raw : string) (i : nat) :
  (N.of_nat i < 9999)%N -> (i < length (fields_of raw))%nat ->
  nospace (nth i (fields_of raw) "") = true.
Proof.
  intros Hi Hlen. unfold fields_of, split in *.
  apply split_loop_nospace; [exact I | lia | exact Hlen].
Qed.

(** A string without white space is at most one word. *)
Lemma split_loop_one_word (s : string) :
  forall cur : option string,
    nospace s = true -> (length (split_loop None cur s) <= 1)%nat.
Proof.
  induction s as [| c s IH]; intros cur Hs.
  - destruct cur; simpl; lia.
  - simpl in Hs. apply andb_true_iff in Hs as [Hc Hs].
    apply negb_true_iff in Hc. simpl. rewrite Hc.
    destruct cur; simpl; apply IH; exact Hs.
Qed.

Lemma replace_nospace (old : ascii) (new s : string) :
  nospace new = true -> nospace s = true ->
  nospace (replace old new s) = true.
Proof.
  intros Hnew. induction s as [| c s IH]; intros Hs; simpl in *; auto.
  apply andb_true_iff in Hs as [Hc Hs].
  destruct (Ascii.eqb c old).
  - rewrite nospace_app, Hnew. simpl. auto.
  - simpl. rewrite Hc. simpl. auto.
Qed.

Lemma no_lf_app (a b : string) : no_lf (a ++ b) = no_lf a && no_lf b.
Proof.
  induction a as [| c a IH]; simpl; [reflexivity |].
  rewrite IH. now rewrite andb_assoc.
Qed.






Lemma existsb_eqb_false (x : string) (l : list string) :
  existsb (String.eqb x) l = false ->
  Forall (fun m => (x =? m) = false) l.
Proof.
  intros H. apply Forall_forall. intros m Hm.
  destruct (x =? m) eqn:E; auto.
  assert (existsb (String.eqb x) l = true)
    by (apply existsb_exists; exists m; auto).
  congruence.
Qed.


End StringFacts.

(** ** Counting the lines of standard output *)

Section Counting.






End Counting.

(** ** One line, rule by rule *)

Lemma bind_get {A : Type} (k : State -> M A) (st : State) :
  bind get k st = k st st.
Proof.
  unfold bind, get. destruct (k st st) as [[b s2] o2]. reflexivity.
Qed.

(** A line whose marker field is a marker has that field. *)
Lemma marker_in_range (raw x : string) :
  marker_of raw = x -> x <> "" ->
  (length (fields_of raw) <=? mi_of raw)%nat = false
  /\ (mi_of raw <? length (fields_of raw))%nat = true.
Proof.
  intros H Hx. apply nth_not_default in H; auto.
  split; [apply Nat.leb_gt | apply Nat.ltb_lt]; exact H.
Qed.

Lemma intro_rule_off (st : State) (raw : string) :
  intro_rule_fires st raw = false ->
  Forall (fun k =>
            intro st && (mi_of raw + 1 <? length (fields_of raw))%nat
            && (nth (mi_of raw + 1) (fields_of raw) "" =? k) = false)
         intro_keywords.
Proof.
  unfold intro_rule_fires. intros H. apply Forall_forall. intros k Hk.
  apply andb_false_iff in H as [H | H]; [now rewrite H |].
  destruct (nth (mi_of raw + 1) (fields_of raw) "" =? k) eqn:E;
    [| now rewrite andb_false_r].
  exfalso.
  assert (existsb (String.eqb (nth (mi_of raw + 1) (fields_of raw) ""))
            intro_keywords = true) as Hex
    by (apply existsb_exists; exists k; split; auto).
  congruence.
Qed.

Ltac intro_off H :=
  let F := fresh "F" in
  pose proof (intro_rule_off _ _ H) as F;
  unfold intro_keywords in F;
  repeat (apply Forall_cons_iff in F as [? F]);
  clear F.

(** The introduction rule sees the line only through the fields after the
    marker. *)
Lemma intro_tests_rest (raw : string) :
  (mi_of raw + 1 <? length (fields_of raw))%nat
  = (0 <? length (rest_of raw))%nat
  /\ nth (mi_of raw + 1) (fields_of raw) "" = nth 0 (rest_of raw) ""
  /\ pop_marker (mi_of raw) (fields_of raw) = rest_of raw.
Proof.
  unfold rest_of. repeat split.
  - rewrite length_skipn.
    destruct (Nat.ltb_spec (mi_of raw + 1) (length (fields_of raw)));
      destruct (Nat.ltb_spec 0 (length (fields_of raw) - (mi_of raw + 1)));
      auto; lia.
  - apply nth_skipn_0.
  - apply pop_marker_skipn, marker_index_le_1.
Qed.




(** ** Properties of the state that commands keep *)

Section Keeps.

Variable P : State -> Prop.

Lemma keeps_ret {A : Type} (a : A) : keeps P (ret a).
Proof. intros st H. exact H. Qed.

Lemma keeps_get : keeps P get.
Proof. intros st H. exact H. Qed.

Lemma keeps_print (x : string) : keeps P (print x).
Proof. intros st H. exact H. Qed.

Lemma keeps_assign (f : State -> State) :
  (forall st, P st -> P (f st)) -> keeps P (assign f).
Proof. intros Hf st H. apply Hf, H. Qed.

Lemma keeps_bind {A B : Type} (m : M A) (k : A -> M B) :
  keeps P m -> (forall a, keeps P (k a)) -> keeps P (bind m k).
Proof.
  intros Hm Hk st H. unfold bind, state_of.
  specialize (Hm st H). unfold state_of in Hm.
  destruct (m st) as [[a s1] o1]. simpl in Hm.
  specialize (Hk a s1 Hm). unfold state_of in Hk.
  destruct (k a s1) as [[b s2] o2]. exact Hk.
Qed.

Lemma keeps_if {A : Type} (c : bool) (m1 m2 : M A) :
  keeps P m1 -> keeps P m2 -> keeps P (if c then m1 else m2).
Proof. destruct c; auto. Qed.

Lemma keeps_when (c : bool) (m : M unit) : keeps P m -> keeps P (when c m).
Proof.
  intros H. unfold when. apply keeps_if; [exact H | apply keeps_ret].
Qed.

End Keeps.

(** Breaks a goal [keeps P m] down along the commands of [m]; what is left
    are the assignments, one goal for each. *)
Ltac keeps_steps :=
  repeat lazymatch goal with
    | |- keeps _ (bind _ _) => apply keeps_bind; [| intros ?]
    | |- keeps _ (when _ _) => apply keeps_when
    | |- keeps _ (if _ then _ else _) => apply keeps_if
    | |- keeps _ (match ?x with Some _ => _ | None => _ end) => destruct x
    | |- keeps _ (print _) => apply keeps_print
    | |- keeps _ (ret _) => apply keeps_ret
    | |- keeps _ get => apply keeps_get
    | |- keeps _ (assign _) => apply keeps_assign
    | |- keeps _ do_eoc => unfold do_eoc
    | |- keeps _ (do_beg _) => unfold do_beg
    | |- keeps _ set_missing => unfold set_missing
    | |- keeps _ (bop_block _) => unfold bop_block
    | |- keeps _ (bopi_block _) => unfold bopi_block
    | |- keeps _ (key_block _ _) => unfold key_block; cbv zeta
    | |- keeps _ (description_block _ _) =>
        unfold description_block; cbv zeta
    end.



Section KeptByFiles.

Variable P : State -> Prop.
Variables (tokens : Tokens) (opts : Opts).

Lemma process_lines_keeps (fb : string) (f : list string) :
  Forall (fun raw => keeps P (process_line tokens opts fb raw)) f ->
  keeps P (process_lines tokens opts fb f).
Proof.
  induction 1 as [| raw f Hr Hf IH]; simpl; [apply keeps_ret |].
  apply keeps_bind; auto.
Qed.

Lemma process_file_keeps (now : string) (f : list string) (filename : string) :
  (forall v st, P st -> P (set_verb v st)) ->
  (forall v st, P st -> P (set_source v st)) ->
  Forall (fun raw =>
            keeps P (process_line tokens opts (file_basename_of filename) raw))
         f ->
  keeps P (process_file now f filename tokens opts).
Proof.
  intros Hv Hs Hf. unfold process_file; cbv zeta.
  apply keeps_bind; [apply keeps_print | intros _].
  apply keeps_bind; [apply process_lines_keeps, Hf | intros _].
  keeps_steps; auto.
Qed.

End KeptByFiles.

(** ** Options that the lines do not read *)

Section SameLines.

Variables o1 o2 : Opts.
Hypothesis same_line : forall tokens fb raw,
  process_line tokens o1 fb raw = process_line tokens o2 fb raw.

Lemma process_lines_same tokens fb f :
  process_lines tokens o1 fb f = process_lines tokens o2 fb f.
Proof.
  induction f as [| raw f IH]; simpl; [reflexivity |].
  now rewrite same_line, IH.
Qed.

Lemma process_file_same now f filename tokens :
  process_file now f filename tokens o1
  = process_file now f filename tokens o2.
Proof. unfold process_file. now rewrite process_lines_same. Qed.

Lemma files_loop_same w tokens names : forall i input st,
  files_loop w tokens o1 i input names st
  = files_loop w tokens o2 i input names st.
Proof.
  induction names as [| filename names IH]; intros i input st; simpl;
    [reflexivity |].
  destruct ((filename =? "-") || (filename =? "")).
  - rewrite process_file_same.
    destruct (process_file _ _ _ _ _ _) as [[u st1] out1]. now rewrite IH.
  - destruct (open_file w filename) as [f |]; [| reflexivity].
    rewrite process_file_same.
    destruct (process_file _ _ _ _ _ _) as [[u st1] out1]. now rewrite IH.
Qed.

End SameLines.

(** The shut-up flag is not read either: a run with it and a run without
    it print the same. *)
Lemma shut_up_flag_unused w opts b : main w (with_s b opts) = main w opts.
Proof.
  unfold main.
  change (select_lang (with_s b opts)) with (select_lang opts).
  change (files (with_s b opts)) with (files opts).
  change (bare (with_s b opts)) with (bare opts).
  change (style (with_s b opts)) with (style opts).
  rewrite (files_loop_same (with_s b opts) opts); reflexivity.
Qed.

(** ** The date of a file *)

Lemma process_file_banner now f filename tokens opts st :
  process_file now f filename tokens opts st
  = (tt,
     state_of (file_body tokens opts (file_basename_of filename) f st),
     file_banner (file_basename_of filename) now
       :: output_of (file_body tokens opts (file_basename_of filename) f st)).
Proof.
  unfold process_file, file_body; cbv zeta.
  unfold bind at 1. unfold print at 1.
  destruct (bind _ _ st) as [[[] s] o]. reflexivity.
Qed.

Lemma same_but_date_refl (l : list string) : Forall2 same_but_date l l.
Proof. induction l; constructor; auto. now left. Qed.

Lemma files_loop_dates w c1 c2 tokens opts names : forall i j input st,
  let r1 := files_loop (with_clock c1 w) tokens opts i input names st in
  let r2 := files_loop (with_clock c2 w) tokens opts j input names st in
  fst r1 = fst r2 /\ Forall2 same_but_date (snd r1) (snd r2).
Proof.
  induction names as [| filename names IH]; intros i j input st; simpl.
  - split; [reflexivity | constructor].
  - destruct ((filename =? "-") || (filename =? "")).
    + rewrite !process_file_banner.
      specialize (IH (S i) (S j) []
        (state_of
           (file_body tokens opts (file_basename_of filename) input st))).
      simpl in IH.
      destruct (files_loop (with_clock c1 w) _ _ _ _ _ _) as [[ok1 s1] o1].
      destruct (files_loop (with_clock c2 w) _ _ _ _ _ _) as [[ok2 s2] o2].
      simpl in *. destruct IH as [E F]. split; [exact E |].
      constructor; [right; eauto |].
      apply Forall2_app; [apply same_but_date_refl | exact F].
    + destruct (open_file w filename) as [f |];
        [| split; [reflexivity | constructor]].
      rewrite !process_file_banner.
      specialize (IH (S i) (S j) input
        (state_of (file_body tokens opts (file_basename_of filename) f st))).
      simpl in IH.
      destruct (files_loop (with_clock c1 w) _ _ _ _ _ _) as [[ok1 s1] o1].
      destruct (files_loop (with_clock c2 w) _ _ _ _ _ _) as [[ok2 s2] o2].
      simpl in *. destruct IH as [E F]. split; [exact E |].
      constructor; [right; eauto |].
      apply Forall2_app; [apply same_but_date_refl | exact F].
Qed.

(** ** The claims *)

(** *** C1: verbatim blocks at the end of a file *)




(** *** C2: the style of a keyword label *)

(** C2 at its failing input.  The line [!REVISION HISTORY: fixed INPUT bug]
    matches the keyword [!REVISION HISTORY:], which contains none of the
    argument words, and its label is printed in the argument style, because
    [INPUT] stands elsewhere on the line; the keyword alone on a line is
    printed in the general style. *)
Theorem keyword_style_follows_line :
  find (fun key => contains key "!REVISION HISTORY: fixed INPUT bug")
    default_keys = Some "!REVISION HISTORY:"
  /\ existsb (fun x => contains x "!REVISION HISTORY:") argument_words = false
  /\ output_of (process_line tokensF (default_opts []) "a.f90"
                  "!REVISION HISTORY:" (set_prologue true initial_state))
     = [nl ++ "\bigskip"; "{\sf REVISION HISTORY:}"; begin_verbatim]
  /\ output_of (process_line tokensF (default_opts []) "a.f90"
                  "!REVISION HISTORY: fixed INPUT bug"
                  (set_prologue true initial_state))
     = [nl ++ "\bigskip"; "{\em REVISION HISTORY:}"; begin_verbatim].
Proof. vm_compute. repeat split. Qed.

(** *** C3: the shut-up flag *)

(** C3 at its failing input.  With the shut-up flag set, the body of a code
    block of a shell script is printed between the verbatim commands all the
    same. *)
Theorem shut_up_flag_ignored :
  opt_s (with_s true (default_opts [])) = true
  /\ output_of (process_file a_date ["#BOC"; "echo hi"; "#EOC"] "run.sh"
                  (language_tokens LangS) (with_s true (default_opts []))
                  initial_state)
     = [ file_banner "run.sh" a_date; sep_line; nl ++ begin_verbatim;
         "echo hi"; end_verbatim; ""; eof_separator ].
Proof. vm_compute. split; reflexivity. Qed.

(** *** C4: the prologue-open marker *)

(** C4, as stated, fails.  In bare mode the first prologue of the run prints
    the separator and no banner; and a prologue that comes after a code block
    is the first of the run and prints the rule, not the banner. *)
Lemma first_prologue_without_banner :
  output_of (process_line tokensF (with_bare true (default_opts [])) "a.f90"
               "!BOP" initial_state) = [sep_line]
  /\ output_of (process_lines tokensF (default_opts []) "a.f90"
                  ["!BOC"; "!EOC"; "!BOP"] initial_state)
     = [ sep_line; nl ++ begin_verbatim; end_verbatim; sep_line;
         "\begin{document}"; "\tableofcontents"; "\newpage"; hrule_line ].
Proof. vm_compute. split; reflexivity. Qed.

(** C4, amended.  A line whose marker field is the prologue-open marker and
    that the introduction rule does not take: closes the open code block
    ([\end{verbatim}] when its verbatim block is open); prints the separator;
    begins the document unless bare mode is on or the document has begun;
    prints the banner with the label [app:ProLogues] when the [first] flag is
    set and bare mode is off, nothing in its place when the flag is set and
    bare mode is on, and the rule when the flag is unset; and leaves the
    prologue active, no block open, the [first] flag unset, the four
    [have_] flags unset and the name [UNKNOWN]. *)
Theorem prologue_open lang opts fb raw st :
  marker_of raw = bop (language_tokens lang) ->
  intro_rule_fires st raw = false ->
  process_line (language_tokens lang) opts fb raw st =
  (tt,
   mkState (intro st) true false false false (tpage st)
     (begdoc st || negb (bare opts)) (not_first st)
     false false false false "UNKNOWN"
     (title st) (author st) (affiliation st) (doc_date st),
   ((if source st && verb st then [end_verbatim] else [])
    ++ [sep_line]
    ++ (if bare opts || begdoc st then [] else header_items st)
    ++ (if first st
        then if bare opts then [] else [banner_line]
        else [hrule_line]))%list).
Proof.
  intros Hm Hi.
  destruct (marker_in_range raw _ Hm) as [H1 H2]; [lang_cases lang |].
  intro_off Hi.
  expose raw. rewrite H1, H2, Hm.
  destruct lang; simpl.
  all: rewrite bind_get; rewrite_false.
  all: destruct st as [i p f s v t b nf hn hd hi hh ni ti au af dd]; simpl.
  all: run_cmd; destruct (bare opts), s, v, f, b, t; reflexivity.
Qed.

(** The line [!BOP] in the initial state: header, then banner. *)
Lemma prologue_open_witness :
  process_line tokensF (default_opts []) "a.f90" "!BOP" initial_state =
  (tt,
   mkState false true false false false false true false
     false false false false "UNKNOWN" "" "" "" "",
   [ sep_line; "\begin{document}"; "\tableofcontents"; "\newpage";
     banner_line ]).
Proof.
  exact (prologue_open LangF (default_opts []) "a.f90" "!BOP" initial_state
           eq_refl eq_refl).
Defined.

(** *** C5: the internal prologue-open marker *)



(** *** C6: the quote marker *)

(** C6, as stated, fails: the text after the marker is not reproduced byte
    for byte.  Of the line [!QUOTE: a  b], whose text after the marker is
    [ a  b], the output is [a b]. *)
Lemma quote_collapses_spaces :
  line_of "!QUOTE: a  b" = "!QUOTE:" ++ " a  b"
  /\ output_of (process_line tokensF (default_opts []) "a.f90" "!QUOTE: a  b"
                  initial_state) = ["a b"]
  /\ "a b" <> " a  b".
Proof. vm_compute. repeat split. discriminate. Qed.

(** C6, amended.  For every line whose marker field is the quote marker, in
    every state and before every other rule, the output is one item: the
    fields after the marker joined by single spaces (the text after the
    marker with each run of white space turned into one space and the white
    space at its ends dropped); the state does not change. *)
Theorem quote_joined tokens opts fb raw st :
  marker_of raw = "!QUOTE:" ->
  process_line tokens opts fb raw st = (tt, st, [join " " (rest_of raw)]).
Proof.
  intros H. destruct (marker_in_range raw _ H) as [H1 H2]; [discriminate |].
  expose raw. rewrite H1, H2, H. reflexivity.
Qed.

(** A quote line inside an open code block, with a continuation mark before
    the marker. *)
Lemma quote_joined_witness :
  process_line tokensF (default_opts []) "a.f90" "  ! !QUOTE: \alpha   \beta "
    (set_source true (set_verb true initial_state))
  = (tt, set_source true (set_verb true initial_state), ["\alpha \beta"]).
Proof.
  exact (quote_joined tokensF (default_opts []) "a.f90"
           "  ! !QUOTE: \alpha   \beta "
           (set_source true (set_verb true initial_state)) eq_refl).
Defined.

(** *** C7: the page break of a routine name marker *)




(** *** C8: two runs on the same input *)

(** C8.  Two runs of [main] with the same options, the same standard input
    and the same files, whose clocks differ, end the same way and print item
    for item the same, except that where one prints the banner of a file the
    other prints the banner of that file with its own date. *)
Theorem deterministic_but_date w opts c1 c2 :
  fst (main (with_clock c1 w) opts) = fst (main (with_clock c2 w) opts)
  /\ Forall2 same_but_date (snd (main (with_clock c1 w) opts))
       (snd (main (with_clock c2 w) opts)).
Proof.
  unfold main.
  pose proof (files_loop_dates w c1 c2 (language_tokens (select_lang opts))
    opts (match files opts with [] => ["-"] | _ :: _ => files opts end)
    0 0 (stdin w) initial_state) as H.
  simpl in H. change (stdin (with_clock c1 w)) with (stdin w).
  change (stdin (with_clock c2 w)) with (stdin w).
  destruct (files_loop (with_clock c1 w) _ _ _ _ _ _) as [[ok1 s1] o1].
  destruct (files_loop (with_clock c2 w) _ _ _ _ _ _) as [[ok2 s2] o2].
  cbn [fst snd] in H. destruct H as [E F]. inversion E; subst.
  cbv beta iota zeta. cbn [fst snd].
  split; [reflexivity |].
  apply Forall2_app; [apply same_but_date_refl |].
  apply Forall2_app; [exact F | apply same_but_date_refl].
Qed.

(** *** C9: the internal-routine name marker with a short name *)

(** C9.  An internal-routine name marker that is processed in a prologue and
    is followed by fewer than two fields prints the sub-subsection heading
    with nothing between the brackets of the short label and, between the
    braces, all of the text after the marker (with its underscores escaped,
    as in every heading). *)
Theorem iroutine_short lang opts fb raw st :
  prologue st = true ->
  marker_of raw = "!IROUTINE:" ->
  intro_rule_fires st raw = false ->
  (length (rest_of raw) < 2)%nat ->
  process_line (language_tokens lang) opts fb raw st =
  (tt, set_have_name true st,
   ["\subsubsection []{" ++ replace "_"%char "\_" (join " " (rest_of raw))
    ++ "}" ++ nl]).
Proof.
  intros Hp Hm Hi Hlen.
  destruct (marker_in_range raw _ Hm) as [H1 H2]; [discriminate |].
  intro_off Hi.
  destruct (intro_tests_rest raw) as (_ & Hnth & Hpop).
  assert (Hw : (1 <? length (split (replace "_"%char "\_"
                   (join " " (rest_of raw))) None))%nat = false).
  { apply Nat.ltb_ge. unfold split. apply split_loop_one_word.
    apply replace_nospace; [reflexivity |].
    destruct (rest_of raw) as [| w [| w' l]] eqn:Hr; simpl in Hlen; try lia.
    - reflexivity.
    - simpl. replace w with (nth (mi_of raw + 1) (fields_of raw) "")
        by (rewrite Hnth; reflexivity).
      pose proof (marker_index_le_1 (fields_of raw)) as Hmi.
      fold (mi_of raw) in Hmi.
      apply fields_nospace; [lia |].
      unfold rest_of in Hr.
      assert (Hl : length (skipn (mi_of raw + 1) (fields_of raw)) = 1%nat)
        by (rewrite Hr; reflexivity).
      rewrite length_skipn in Hl. lia. }
  expose raw. rewrite H1, H2, Hm, Hpop, Hw.
  destruct lang; simpl.
  all: rewrite bind_get; rewrite_false; rewrite Hp; reflexivity.
Qed.

(** The line [!IROUTINE: get_x] in a prologue. *)
Lemma iroutine_short_witness :
  process_line tokensF (default_opts []) "a.f90" "!IROUTINE: get_x"
    (set_prologue true initial_state)
  = (tt, set_have_name true (set_prologue true initial_state),
     ["\subsubsection []{get\_x}" ++ nl]).
Proof.
  refine (iroutine_short LangF (default_opts []) "a.f90" "!IROUTINE: get_x"
            (set_prologue true initial_state) eq_refl eq_refl eq_refl _).
  vm_compute. lia.
Defined.

(** *** C10: the listing flag *)

(** C10.  A run of [main] prints the same, and ends the same way, whether
    the listing flag is set or not, all else being equal. *)
Theorem listing_flag_unused w opts b : main w (with_l b opts) = main w opts.
Proof.
  unfold main.
  change (select_lang (with_l b opts)) with (select_lang opts).
  change (files (with_l b opts)) with (files opts).
  change (bare (with_l b opts)) with (bare opts).
  change (style (with_l b opts)) with (style opts).
  rewrite (files_loop_same (with_l b opts) opts); reflexivity.
Qed.

(** * Further properties of the code *)

Section Words.

Lemma string_app_nil_r (a : string) : a ++ "" = a.
Proof. induction a as [| c a IH]; simpl; [reflexivity | now rewrite IH]. Qed.

Lemma word_nospace (w : string) : word w = true -> nospace w = true.
Proof. unfold word. intros H. now apply andb_true_iff in H as [H _]. Qed.

(** Reading on inside a word. *)
Lemma split_loop_in_word (w : string) : forall maxcount acc s,
  nospace w = true ->
  split_loop maxcount (Some acc) (w ++ s)
  = split_loop maxcount (Some (acc ++ w)) s.
Proof.
  induction w as [| c w IH]; intros maxcount acc s Hw; simpl.
  - now rewrite string_app_nil_r.
  - simpl in Hw. apply andb_true_iff in Hw as [Hc Hw].
    apply negb_true_iff in Hc. rewrite Hc, (IH _ _ _ Hw).
    now rewrite string_app_assoc.
Qed.

Lemma split_loop_word (w : string) (maxcount : option N) (s : string) :
  word w = true -> exhausted maxcount = false ->
  split_loop maxcount None (w ++ s)
  = split_loop (decr maxcount) (Some w) s.
Proof.
  unfold word. intros Hw Hx. apply andb_true_iff in Hw as [Hn He].
  destruct w as [| c w]; [discriminate |].
  simpl in Hn. apply andb_true_iff in Hn as [Hc Hn].
  apply negb_true_iff in Hc. simpl. rewrite Hc, Hx.
  now rewrite (split_loop_in_word w _ _ _ Hn).
Qed.

(** [split] undoes [join]: words joined by single spaces come back, when
    the budget allows one field for each. *)
Lemma split_join (ws : list string) : forall maxcount,
  forallb word ws = true ->
  match maxcount with
  | Some k => (N.of_nat (length ws) <= k)%N
  | None => True
  end ->
  split_loop maxcount None (join " " ws) = ws.
Proof.
  induction ws as [| w ws IH]; intros maxcount Hws Hk; [reflexivity |].
  simpl in Hws. apply andb_true_iff in Hws as [Hw Hws].
  assert (Hx : exhausted maxcount = false).
  { destruct maxcount as [k |]; [| reflexivity]. simpl.
    apply N.eqb_neq. simpl length in Hk. lia. }
  destruct ws as [| w2 ws].
  - simpl. rewrite <- (string_app_nil_r w) at 1.
    now rewrite split_loop_word.
  - change (join " " (w :: w2 :: ws))
      with (w ++ String " " (join " " (w2 :: ws))).
    rewrite split_loop_word by assumption.
    simpl split_loop at 1. f_equal.
    change (isspace " ") with true. cbv iota.
    apply IH; [exact Hws |].
    destruct maxcount as [k |]; [| exact I]. simpl length in *. simpl. lia.
Qed.

Lemma split_loop_nonempty (s : string) : forall maxcount cur,
  match cur with Some w => w <> "" | None => True end ->
  Forall (fun f => f <> "") (split_loop maxcount cur s).
Proof.
  induction s as [| c s IH]; intros maxcount cur Hcur; simpl.
  - destruct cur; constructor; auto.
  - destruct cur as [w |].
    + destruct (isspace c).
      * constructor; [exact Hcur | apply IH; exact I].
      * apply IH. destruct w; discriminate.
    + destruct (isspace c); [apply IH; exact I |].
      destruct (exhausted maxcount).
      * constructor; [discriminate | constructor].
      * apply IH. discriminate.
Qed.

(** The fields of a line are words, when there are at most 9999 of them. *)
Lemma fields_words (raw : string) :
  (N.of_nat (length (fields_of raw)) <= 9999)%N ->
  forallb word (fields_of raw) = true.
Proof.
  intros Hlen. apply forallb_forall. intros f Hin.
  unfold word. apply andb_true_iff. split.
  - destruct (In_nth _ _ "" Hin) as (i & Hi & <-).
    apply fields_nospace; [lia | exact Hi].
  - pose proof (split_loop_nonempty (line_of raw) (Some 9999%N) None I) as Hne.
    rewrite Forall_forall in Hne. apply negb_true_iff, String.eqb_neq.
    apply Hne. exact Hin.
Qed.

End Words.

Section Lines.

Lemma nospace_no_lf (s : string) : nospace s = true -> no_lf s = true.
Proof.
  induction s as [| c s IH]; simpl; [reflexivity |].
  intros H. apply andb_true_iff in H as [Hc Hs]. rewrite (IH Hs).
  destruct (Ascii.eqb_spec c LF) as [-> | _]; [discriminate Hc | reflexivity].
Qed.

Lemma no_lf_join (ws : list string) :
  forallb word ws = true -> no_lf (join " " ws) = true.
Proof.
  induction ws as [| w ws IH]; intros H; [reflexivity |].
  simpl in H. apply andb_true_iff in H as [Hw Hws].
  apply word_nospace, nospace_no_lf in Hw.
  destruct ws as [| w2 ws]; [exact Hw |].
  change (join " " (w :: w2 :: ws))
    with (w ++ String " " (join " " (w2 :: ws))).
  rewrite no_lf_app, Hw. simpl. apply IH, Hws.
Qed.

(** [rstrip] leaves a text without line feed alone, and takes a final line
    feed away. *)
Lemma rstrip_no_lf (s : string) : no_lf s = true -> rstrip LF s = s.
Proof.
  induction s as [| c s IH]; simpl; [reflexivity |].
  intros H. apply andb_true_iff in H as [Hc Hs].
  apply negb_true_iff in Hc. now rewrite Hc, (IH Hs).
Qed.

Lemma rstrip_no_lf_nl (s : string) :
  no_lf s = true -> rstrip LF (s ++ nl) = s.
Proof.
  induction s as [| c s IH]; simpl; [reflexivity |].
  intros H. apply andb_true_iff in H as [Hc Hs].
  apply negb_true_iff in Hc. now rewrite Hc, (IH Hs).
Qed.

Lemma line_of_words (ws : list string) (e : string) :
  forallb word ws = true -> e = "" \/ e = nl ->
  line_of (join " " ws ++ e) = join " " ws.
Proof.
  intros Hws He. unfold line_of.
  assert (Hr : rstrip LF (join " " ws ++ e) = join " " ws).
  { destruct He as [-> | ->].
    - rewrite string_app_nil_r. apply rstrip_no_lf, no_lf_join, Hws.
    - apply rstrip_no_lf_nl, no_lf_join, Hws. }
  rewrite Hr. destruct ws as [| w ws]; [reflexivity |].
  simpl in Hws. apply andb_true_iff in Hws as [Hw _].
  unfold word in Hw. apply andb_true_iff in Hw as [Hn He'].
  destruct w as [| c w]; [discriminate |].
  simpl in Hn. apply andb_true_iff in Hn as [Hc _].
  apply negb_true_iff in Hc.
  destruct ws as [| w2 ws]; simpl; now rewrite Hc.
Qed.

Lemma fields_of_words (ws : list string) (e : string) :
  forallb word ws = true -> e = "" \/ e = nl ->
  (N.of_nat (length ws) <= 9999)%N ->
  fields_of (join " " ws ++ e) = ws.
Proof.
  intros Hws He Hlen. unfold fields_of. rewrite line_of_words by assumption.
  unfold split. apply split_join; assumption.
Qed.

End Lines.

(** X1.  A quote line whose text after the marker is words separated by
    single spaces (fewer than 9999 of them), with or without its final line
    feed, prints exactly that text, in every state. *)
Theorem quote_single_spaced tokens opts fb ws e st :
  forallb word ws = true ->
  (N.of_nat (length ws) < 9999)%N ->
  e = "" \/ e = nl ->
  process_line tokens opts fb (join " " ("!QUOTE:" :: ws) ++ e) st
  = (tt, st, [join " " ws]).
Proof.
  intros Hws Hlen He.
  assert (Hf : fields_of (join " " ("!QUOTE:" :: ws) ++ e) = "!QUOTE:" :: ws).
  { apply fields_of_words; [exact Hws | exact He | simpl length; lia]. }
  expose (join " " ("!QUOTE:" :: ws) ++ e).
  unfold marker_of, mi_of. rewrite Hf. reflexivity.
Qed.

Lemma quote_single_spaced_witness :
  process_line tokensF (default_opts []) "a.f90"
    (join " " ["!QUOTE:"; "\begin{center}"; "x_1"; "\end{center}"] ++ nl)
    (set_prologue true initial_state)
  = (tt, set_prologue true initial_state,
     ["\begin{center} x_1 \end{center}"]).
Proof.
  apply (quote_single_spaced tokensF (default_opts []) "a.f90"
           ["\begin{center}"; "x_1"; "\end{center}"] nl);
    [reflexivity | reflexivity | right; reflexivity].
Defined.

Section Escape.

Lemma replace_app (old : ascii) (new a b : string) :
  replace old new (a ++ b) = replace old new a ++ replace old new b.
Proof.
  induction a as [| c a IH]; simpl; [reflexivity |].
  rewrite IH. destruct (Ascii.eqb c old); [| reflexivity].
  now rewrite string_app_assoc.
Qed.

Lemma escape_join (ws : list string) :
  escape (join " " ws) = join " " (map escape ws).
Proof.
  induction ws as [| w ws IH]; [reflexivity |].
  destruct ws as [| w2 ws]; [reflexivity |].
  change (join " " (w :: w2 :: ws))
    with (w ++ String " " (join " " (w2 :: ws))).
  unfold escape in *. rewrite replace_app.
  change (replace "_" "\_" (String " " (join " " (w2 :: ws))))
    with (String " " (replace "_" "\_" (join " " (w2 :: ws)))).
  rewrite IH. reflexivity.
Qed.

Lemma escape_word (w : string) : word w = true -> word (escape w) = true.
Proof.
  unfold word, escape. intros H. apply andb_true_iff in H as [Hn He].
  apply andb_true_iff. split.
  - apply replace_nospace; [reflexivity | exact Hn].
  - destruct w as [| c w]; [discriminate |].
    simpl. destruct (Ascii.eqb c "_"); reflexivity.
Qed.

Lemma forallb_skipn {A : Type} (p : A -> bool) (k : nat) (l : list A) :
  forallb p l = true -> forallb p (skipn k l) = true.
Proof.
  intros H. rewrite <- (firstn_skipn k l), forallb_app in H.
  now apply andb_true_iff in H as [_ H].
Qed.

End Escape.

(** X2.  An internal-routine name marker processed in a prologue and
    followed by two fields or more, on a line of at most 9999 fields, prints
    the heading whose short label is the second field and whose text is all
    the fields, both with their underscores escaped. *)
Theorem iroutine_label lang opts fb raw st w1 w2 more :
  prologue st = true ->
  marker_of raw = "!IROUTINE:" ->
  intro_rule_fires st raw = false ->
  (N.of_nat (length (fields_of raw)) <= 9999)%N ->
  rest_of raw = w1 :: w2 :: more ->
  process_line (language_tokens lang) opts fb raw st =
  (tt, set_have_name true st,
   ["\subsubsection [" ++ escape w2 ++ "]{"
    ++ escape (join " " (w1 :: w2 :: more)) ++ "}" ++ nl]).
Proof.
  intros Hp Hm Hi Hlen Hrest.
  destruct (marker_in_range raw _ Hm) as [H1 H2]; [discriminate |].
  intro_off Hi.
  destruct (intro_tests_rest raw) as (_ & _ & Hpop).
  assert (Hwords : split (escape (join " " (w1 :: w2 :: more))) None
                   = map escape (w1 :: w2 :: more)).
  { rewrite escape_join. unfold split. apply split_join; [| exact I].
    rewrite forallb_forall. intros x Hx. apply in_map_iff in Hx as (y & <- & Hy).
    apply escape_word.
    pose proof (forallb_skipn word (mi_of raw + 1) _ (fields_words raw Hlen))
      as Hall.
    fold (rest_of raw) in Hall. rewrite Hrest in Hall.
    rewrite forallb_forall in Hall. apply Hall, Hy. }
  expose raw. rewrite H1, H2, Hm, Hpop, Hrest.
  fold (escape (join " " (w1 :: w2 :: more))). rewrite Hwords.
  destruct lang; simpl.
  all: rewrite bind_get; rewrite_false; rewrite Hp; reflexivity.
Qed.

Lemma iroutine_label_witness :
  process_line tokensF (default_opts []) "a.f90"
    "!IROUTINE: subroutine get_x - reads x" (set_prologue true initial_state)
  = (tt, set_have_name true (set_prologue true initial_state),
     ["\subsubsection [get\_x]{subroutine get\_x - reads x}" ++ nl]).
Proof.
  apply (iroutine_label LangF (default_opts []) "a.f90"
           "!IROUTINE: subroutine get_x - reads x"
           (set_prologue true initial_state)
           "subroutine" "get_x" ["-"; "reads"; "x"]);
    try reflexivity.
  vm_compute. discriminate.
Defined.

Section Blank.

Lemma lstrip_all_space (a s : string) :
  all_space a = true -> lstrip (a ++ s) = lstrip s.
Proof.
  induction a as [| c a IH]; simpl; [reflexivity |].
  intros H. apply andb_true_iff in H as [Hc Ha]. now rewrite Hc, IH.
Qed.

Lemma rstrip_all_space (s : string) :
  all_space s = true -> all_space (rstrip LF s) = true.
Proof.
  induction s as [| c s IH]; simpl; [reflexivity |].
  intros H. apply andb_true_iff in H as [Hc Hs].
  destruct (Ascii.eqb c LF && (rstrip LF s =? "")); [reflexivity |].
  simpl. now rewrite Hc, IH.
Qed.

(** [rstrip] does not go past a character that is no line feed. *)
Lemma rstrip_app_char (a : string) (c : ascii) (b : string) :
  Ascii.eqb c LF = false ->
  rstrip LF (a ++ String c b) = a ++ String c (rstrip LF b).
Proof.
  intros Hc. induction a as [| x a IH]; simpl.
  - rewrite Hc. reflexivity.
  - rewrite IH. destruct (a ++ String c (rstrip LF b)) eqn:E.
    + destruct a; discriminate.
    + now rewrite andb_false_r.
Qed.

Lemma split_loop_all_space (s : string) : forall maxcount cur,
  all_space s = true ->
  split_loop maxcount cur s
  = match cur with Some w => [w] | None => [] end.
Proof.
  induction s as [| c s IH]; intros maxcount cur H; [reflexivity |].
  simpl in H. apply andb_true_iff in H as [Hc Hs]. simpl. rewrite Hc.
  destruct cur; now rewrite IH.
Qed.

End Blank.

(** X3.  A line of white space only, and a line that holds a lone
    exclamation mark between white space, print nothing and change nothing,
    in every state. *)
Theorem blank_line_skipped tokens opts fb st :
  (forall raw,
     all_space raw = true ->
     process_line tokens opts fb raw st = (tt, st, []))
  /\ (forall lead trail,
        all_space lead = true -> all_space trail = true ->
        process_line tokens opts fb (lead ++ "!" ++ trail) st = (tt, st, [])).
Proof.
  split.
  - intros raw H.
    assert (Hf : fields_of raw = []).
    { unfold fields_of, line_of.
      rewrite <- (string_app_nil_r (rstrip LF raw)).
      rewrite lstrip_all_space by (apply rstrip_all_space, H). reflexivity. }
    expose raw. unfold mi_of. rewrite Hf. reflexivity.
  - intros lead trail Hl Ht.
    assert (Hf : fields_of (lead ++ "!" ++ trail) = ["!"]).
    { unfold fields_of, line_of.
      change (lead ++ "!" ++ trail) with (lead ++ String "!" trail).
      rewrite rstrip_app_char by reflexivity.
      rewrite lstrip_all_space by exact Hl.
      unfold split. simpl.
      now rewrite split_loop_all_space by (apply rstrip_all_space, Ht). }
    expose (lead ++ "!" ++ trail). unfold mi_of. rewrite Hf. reflexivity.
Qed.

Lemma blank_line_skipped_witness :
  process_line tokensF (default_opts []) "a.f90" ("   " ++ nl)
    (set_source true initial_state)
  = (tt, set_source true initial_state, [])
  /\ process_line tokensF (default_opts []) "a.f90" ("  " ++ "!" ++ ("  " ++ nl))
       (set_source true initial_state)
     = (tt, set_source true initial_state, []).
Proof.
  destruct (blank_line_skipped tokensF (default_opts []) "a.f90"
              (set_source true initial_state)) as [Hb Hx].
  split.
  - apply Hb. reflexivity.
  - apply Hx; reflexivity.
Defined.

(** Outside every block a line without marker is dropped. *)
Lemma dropped_step tokens opts fb raw st :
  intro st = false -> prologue st = false -> source st = false ->
  marker_line tokens raw = false ->
  process_line tokens opts fb raw st = (tt, st, []).
Proof.
  intros Hi Hp Hs Hm.
  apply existsb_eqb_false in Hm. unfold all_markers in Hm.
  repeat (apply Forall_cons_iff in Hm as [? Hm]). clear Hm.
  expose raw.
  destruct (length (fields_of raw) <=? mi_of raw)%nat eqn:Hin;
    [reflexivity |].
  rewrite_false. rewrite andb_false_r. rewrite bind_get.
  rewrite Hi, Hp, Hs. simpl. reflexivity.
Qed.

(** X4.  A file none of whose lines has a marker in its marker field, read
    outside introduction, prologue and code block, prints its banner, the
    empty line and the separator of the end of file, and leaves the state
    as it was. *)
Theorem file_without_markers tokens opts now f filename st :
  intro st = false -> prologue st = false -> source st = false ->
  forallb (fun raw => negb (marker_line tokens raw)) f = true ->
  process_file now f filename tokens opts st
  = (tt, st, [file_banner (file_basename_of filename) now; ""; eof_separator]).
Proof.
  intros Hi Hp Hs Hf.
  assert (Hl : process_lines tokens opts (file_basename_of filename) f st
               = (tt, st, [])).
  { induction f as [| raw f IH]; [reflexivity |].
    simpl in Hf. apply andb_true_iff in Hf as [Hr Hf].
    apply negb_true_iff in Hr. simpl. unfold bind.
    rewrite (dropped_step _ _ _ _ _ Hi Hp Hs Hr), (IH Hf). reflexivity. }
  unfold process_file; cbv zeta. unfold bind at 1. unfold print at 1.
  unfold bind at 1. rewrite Hl. run_cmd. rewrite Hs. reflexivity.
Qed.

Lemma file_without_markers_witness :
  process_file a_date ["program p"; "  x = 1 ! set x"; ""; "end program p"]
    "src/p.f90" tokensF (default_opts []) initial_state
  = (tt, initial_state, [file_banner "p.f90" a_date; ""; eof_separator]).
Proof.
  apply (file_without_markers tokensF (default_opts []) a_date
           ["program p"; "  x = 1 ! set x"; ""; "end program p"]
           "src/p.f90" initial_state); reflexivity.
Defined.

(** ** Invariants of the loop *)

(** [step_rules] cuts the body of the loop at one state into its rules, with
    the tests that lead to each; [leaf] runs the commands of one rule. *)
Ltac step_rules :=
  repeat match goal with
    | |- context [(if ?c then _ else _) ?st] =>
        match type of st with State => destruct c eqn:? end
    | |- context [(match ?c with Some _ => _ | None => _ end) ?st] =>
        match type of st with State => destruct c eqn:? end
    end.

Ltac bool_cases :=
  repeat match goal with
    | H : _ && _ = true |- _ => apply andb_true_iff in H as [? ?]
    | H : ?x = true |- _ => is_var x; subst x
    | H : ?x = false |- _ => is_var x; subst x
    | H : true = ?x |- _ => is_var x; subst x
    | H : false = ?x |- _ => is_var x; subst x
    end.

Ltac leaf st :=
  destruct st as [? ? ? ? ? ? ? ? ? ? ? ? ? ? ? ? ?];
  unfold state_of, output_of in *; run_cmd; cbn in *; bool_cases;
  repeat (match goal with
          | |- context [if ?c then _ else _] => destruct c eqn:?
          end; cbn in *; bool_cases);
  auto; try congruence;
  try solve [ repeat match goal with
                     | |- context [?x] =>
                         is_var x;
                         match type of x with bool => destruct x end
                     | H : context [?x] |- _ =>
                         is_var x;
                         match type of x with bool => destruct x end
                     end; cbn in *; auto; congruence ].

Ltac step_invariant raw st :=
  expose raw; step_rules; rewrite ?bind_get; step_rules; leaf st.

Lemma process_line_exclusive tokens opts fb raw st :
  source st && prologue st = false ->
  source (state_of (process_line tokens opts fb raw st))
  && prologue (state_of (process_line tokens opts fb raw st)) = false.
Proof. intros H. step_invariant raw st. Qed.

Lemma process_line_verb_inside tokens opts fb raw st :
  internal opts = false ->
  (verb st = true -> prologue st || source st = true) ->
  verb (state_of (process_line tokens opts fb raw st)) = true ->
  prologue (state_of (process_line tokens opts fb raw st))
  || source (state_of (process_line tokens opts fb raw st)) = true.
Proof. intros Hint H. step_invariant raw st. Qed.

Section Agree.

Variable R : State -> State -> Prop.

Lemma agree_ret {A : Type} (a : A) : agree R (ret a) (ret a).
Proof. intros s1 s2 H. repeat split; auto. Qed.

Lemma agree_print (x : string) : agree R (print x) (print x).
Proof. intros s1 s2 H. repeat split; auto. Qed.

Lemma agree_assign (f : State -> State) :
  (forall s1 s2, R s1 s2 -> R (f s1) (f s2)) -> agree R (assign f) (assign f).
Proof. intros Hf s1 s2 H. repeat split; auto. apply Hf, H. Qed.

Lemma agree_bind {A B : Type} (m1 m2 : M A) (k1 k2 : A -> M B) :
  agree R m1 m2 -> (forall a, agree R (k1 a) (k2 a)) ->
  agree R (bind m1 k1) (bind m2 k2).
Proof.
  intros Hm Hk s1 s2 H. unfold bind, state_of, output_of.
  destruct (Hm s1 s2 H) as (Ha & Hs & Ho).
  unfold state_of, output_of in *.
  destruct (m1 s1) as [[a1 t1] o1], (m2 s2) as [[a2 t2] o2].
  simpl in *. subst a2 o2.
  destruct (Hk a1 t1 t2 Hs) as (Hb & Hs' & Ho').
  unfold state_of, output_of in *.
  destruct (k1 a1 t1) as [[b1 u1] p1], (k2 a1 t2) as [[b2 u2] p2].
  simpl in *. subst. repeat split; auto.
Qed.

(** After [get] the two sides hold their own states. *)
Lemma agree_get_bind {B : Type} (k1 k2 : State -> M B) :
  (forall s1 s2, R s1 s2 -> agree R (k1 s1) (k2 s2)) ->
  agree R (bind get k1) (bind get k2).
Proof. intros Hk s1 s2 H. rewrite !bind_get. apply (Hk s1 s2 H s1 s2 H). Qed.

Lemma agree_if {A : Type} (c : bool) (m1 m2 n1 n2 : M A) :
  agree R m1 n1 -> agree R m2 n2 ->
  agree R (if c then m1 else m2) (if c then n1 else n2).
Proof. destruct c; auto. Qed.

Lemma agree_when (c : bool) (m n : M unit) :
  agree R m n -> agree R (when c m) (when c n).
Proof. intros H. unfold when. apply agree_if; [exact H | apply agree_ret]. Qed.

End Agree.

(** What [same_visible] states share. *)
Lemma same_visible_fields (s1 s2 : State) :
  same_visible s1 s2 ->
  intro s1 = intro s2 /\ prologue s1 = prologue s2 /\ first s1 = first s2
  /\ source s1 = source s2 /\ verb s1 = verb s2 /\ tpage s1 = tpage s2
  /\ begdoc s1 = begdoc s2 /\ not_first s1 = not_first s2
  /\ title s1 = title s2 /\ author s1 = author s2
  /\ affiliation s1 = affiliation s2 /\ doc_date s1 = doc_date s2.
Proof.
  unfold same_visible, forget. destruct s1, s2. cbn. intros H.
  inversion H. repeat split; reflexivity.
Qed.

Ltac visible H :=
  let E := fresh "E" in
  pose proof (same_visible_fields _ _ H) as E;
  destruct E as (? & ? & ? & ? & ? & ? & ? & ? & ? & ? & ? & ?);
  repeat match goal with
    | Heq : ?f ?s1 = ?f ?s2 |- _ => rewrite !Heq; clear Heq
    end.

Ltac same_assign :=
  let s1 := fresh "s" in
  let s2 := fresh "s" in
  let H := fresh "H" in
  intros s1 s2 H; unfold same_visible, forget in *;
  destruct s1, s2; cbn in *; inversion H; reflexivity.

Ltac agree_steps :=
  repeat lazymatch goal with
    | |- agree _ (bind get _) (bind get _) =>
        let H := fresh "HR" in
        apply agree_get_bind; intros ? ? H; visible H
    | |- agree _ (bind _ _) (bind _ _) => apply agree_bind; [| intros ?]
    | |- agree _ (when _ _) (when _ _) => apply agree_when
    | |- agree _ (if _ then _ else _) (if _ then _ else _) => apply agree_if
    | |- agree _ (match ?x with Some _ => _ | None => _ end) _ => destruct x
    | |- agree _ (print _) (print _) => apply agree_print
    | |- agree _ (ret _) (ret _) => apply agree_ret
    | |- agree _ (assign _) (assign _) => apply agree_assign; same_assign
    | |- agree _ do_eoc do_eoc => unfold do_eoc
    | |- agree _ (do_beg _) (do_beg _) => unfold do_beg
    | |- agree _ set_missing set_missing => unfold set_missing
    | |- agree _ (bop_block _) (bop_block _) => unfold bop_block
    | |- agree _ (bopi_block _) (bopi_block _) => unfold bopi_block
    | |- agree _ (key_block _ _) (key_block _ _) => unfold key_block; cbv zeta
    | |- agree _ (description_block _ _) (description_block _ _) =>
        unfold description_block; cbv zeta
    end.

Lemma process_line_agree tokens opts fb raw :
  agree same_visible (process_line tokens opts fb raw)
    (process_line tokens opts fb raw).
Proof. unfold process_line; cbv zeta. agree_steps. Qed.

Lemma process_lines_agree tokens opts fb f :
  agree same_visible (process_lines tokens opts fb f)
    (process_lines tokens opts fb f).
Proof.
  induction f as [| raw f IH]; simpl; [apply agree_ret |].
  apply agree_bind; [apply process_line_agree | intros _; exact IH].
Qed.

(** X5.  The keys [have_name], [have_desc], [have_intf], [have_hist] and
    [name_is] are written and never read: from two states that differ in
    these keys only, a file prints the same and ends in two states that
    again differ in these keys only. *)
Theorem completeness_flags_unread now f filename tokens opts s1 s2 :
  same_visible s1 s2 ->
  output_of (process_file now f filename tokens opts s1)
  = output_of (process_file now f filename tokens opts s2)
  /\ same_visible (state_of (process_file now f filename tokens opts s1))
       (state_of (process_file now f filename tokens opts s2)).
Proof.
  intros H.
  assert (Ha : agree same_visible (process_file now f filename tokens opts)
                 (process_file now f filename tokens opts)).
  { unfold process_file; cbv zeta.
    apply agree_bind; [apply agree_print | intros _].
    apply agree_bind; [apply process_lines_agree | intros _].
    agree_steps. }
  destruct (Ha s1 s2 H) as (_ & Hs & Ho). split; assumption.
Qed.

Lemma completeness_flags_unread_witness :
  output_of (process_file a_date ["!BOP"; "!ROUTINE: f"; "!EOP"] "a.f90"
               tokensF (default_opts [])
               (set_name_is "f" (set_have_name true initial_state)))
  = output_of (process_file a_date ["!BOP"; "!ROUTINE: f"; "!EOP"] "a.f90"
                 tokensF (default_opts []) initial_state)
  /\ same_visible
       (state_of (process_file a_date ["!BOP"; "!ROUTINE: f"; "!EOP"] "a.f90"
                    tokensF (default_opts [])
                    (set_name_is "f" (set_have_name true initial_state))))
       (state_of (process_file a_date ["!BOP"; "!ROUTINE: f"; "!EOP"] "a.f90"
                    tokensF (default_opts []) initial_state)).
Proof.
  apply (completeness_flags_unread a_date ["!BOP"; "!ROUTINE: f"; "!EOP"]
           "a.f90" tokensF (default_opts [])
           (set_name_is "f" (set_have_name true initial_state))
           initial_state).
  reflexivity.
Defined.

(** ** Whole files and runs *)

Section FileInvariant.

Variable P : State -> Prop.
Variables (tokens : Tokens) (opts : Opts).
Hypothesis line_keeps : forall fb raw, keeps P (process_line tokens opts fb raw).

Lemma process_lines_invariant fb f : keeps P (process_lines tokens opts fb f).
Proof.
  apply process_lines_keeps, Forall_forall. intros raw _. apply line_keeps.
Qed.

End FileInvariant.

(** The state after a file: the state after its lines, with the code block
    closed. *)
Lemma process_file_state now f filename tokens opts st :
  state_of (process_file now f filename tokens opts st)
  = (let s1 := state_of (process_lines tokens opts
                           (file_basename_of filename) f st) in
     if source s1 then set_source false (set_verb false s1) else s1).
Proof.
  unfold process_file; cbv zeta. unfold bind at 1. unfold print at 1.
  unfold bind at 1. unfold state_of.
  destruct (process_lines tokens opts (file_basename_of filename) f st)
    as [[u s1] o1].
  destruct s1 as [? ? ? src vb ? ? ? ? ? ? ? ? ? ? ? ?].
  run_cmd. cbn. destruct src, vb; reflexivity.
Qed.

(** X6.  No code block outlives its file: after [process_file] the
    [source] flag is unset, whatever the lines and the state before. *)
Theorem code_block_ends_with_file now f filename tokens opts st :
  source (state_of (process_file now f filename tokens opts st)) = false.
Proof.
  rewrite process_file_state. cbv zeta.
  destruct (source (state_of (process_lines tokens opts
                                (file_basename_of filename) f st))) eqn:E;
    [reflexivity | exact E].
Qed.

(** X7.  A code block and a prologue are never open together: when
    [source] and [prologue] are not both set before, they are not both set
    after any lines. *)
Theorem code_and_prologue_exclusive tokens opts fb f st :
  source st && prologue st = false ->
  source (state_of (process_lines tokens opts fb f st))
  && prologue (state_of (process_lines tokens opts fb f st)) = false.
Proof.
  intros H.
  apply (process_lines_keeps (fun s => source s && prologue s = false));
    [| exact H].
  apply Forall_forall. intros raw _ s Hs.
  apply process_line_exclusive, Hs.
Qed.

Lemma code_and_prologue_exclusive_witness :
  source (state_of (process_lines tokensF (default_opts []) "a.f90"
                      ["!BOP"; "!INTERFACE:"; "!BOC"; "!BOE"; "!BOC"]
                      initial_state))
  && prologue (state_of (process_lines tokensF (default_opts []) "a.f90"
                           ["!BOP"; "!INTERFACE:"; "!BOC"; "!BOE"; "!BOC"]
                           initial_state)) = false.
Proof.
  apply (code_and_prologue_exclusive tokensF (default_opts []) "a.f90"
           ["!BOP"; "!INTERFACE:"; "!BOC"; "!BOE"; "!BOC"] initial_state).
  reflexivity.
Defined.

(** X8.  With internal mode off, a verbatim block is open only inside a
    prologue or a code block: this holds after any lines when it holds
    before, and after a whole file an open verbatim block means an open
    prologue. *)
Theorem verbatim_inside_block tokens opts st :
  internal opts = false ->
  (verb st = true -> prologue st || source st = true) ->
  (forall fb f,
     verb (state_of (process_lines tokens opts fb f st)) = true ->
     prologue (state_of (process_lines tokens opts fb f st))
     || source (state_of (process_lines tokens opts fb f st)) = true)
  /\ (forall now f filename,
        verb (state_of (process_file now f filename tokens opts st)) = true ->
        prologue (state_of (process_file now f filename tokens opts st))
        = true).
Proof.
  intros Hint H.
  assert (Hline : forall fb raw,
            keeps (fun s => verb s = true -> prologue s || source s = true)
              (process_line tokens opts fb raw)).
  { intros fb raw s Hs. apply process_line_verb_inside; assumption. }
  split.
  - intros fb f.
    apply (process_lines_invariant _ tokens opts Hline fb f st H).
  - intros now f filename.
    pose proof (process_lines_invariant _ tokens opts Hline
                  (file_basename_of filename) f st H) as Hl.
    rewrite process_file_state. cbv zeta.
    destruct (state_of (process_lines tokens opts
                          (file_basename_of filename) f st))
      as [? p ? src vb ? ? ? ? ? ? ? ? ? ? ? ?].
    cbn in *. destruct src, vb, p; cbn in *; auto.
Qed.

Lemma verbatim_inside_block_witness :
  prologue (state_of (process_file a_date ["!BOP"; "!INTERFACE:"] "a.f90"
                        tokensF (default_opts []) initial_state)) = true.
Proof.
  apply (proj2 (verbatim_inside_block tokensF (default_opts []) initial_state
                  eq_refl (fun H => H))).
  reflexivity.
Defined.

(** X9.  The flags of the run go one way only: over a file, [begdoc] and
    [tpage] once set stay set, and [first] once unset stays unset. *)
Theorem run_flags_latched now f filename tokens opts st :
  (begdoc st = true ->
   begdoc (state_of (process_file now f filename tokens opts st)) = true)
  /\ (tpage st = true ->
      tpage (state_of (process_file now f filename tokens opts st)) = true)
  /\ (first st = false ->
      first (state_of (process_file now f filename tokens opts st)) = false).
Proof.
  split; [| split]; intros H.
  - refine (process_file_keeps (fun s => begdoc s = true) tokens opts
              now f filename _ _ _ st H); [assigns | assigns |].
    apply Forall_forall. intros raw _.
    unfold process_line; cbv zeta. keeps_steps. all: assigns.
  - refine (process_file_keeps (fun s => tpage s = true) tokens opts
              now f filename _ _ _ st H); [assigns | assigns |].
    apply Forall_forall. intros raw _.
    unfold process_line; cbv zeta. keeps_steps. all: assigns.
  - refine (process_file_keeps (fun s => first s = false) tokens opts
              now f filename _ _ _ st H); [assigns | assigns |].
    apply Forall_forall. intros raw _.
    unfold process_line; cbv zeta. keeps_steps. all: assigns.
Qed.

Lemma run_flags_latched_witness :
  begdoc (state_of (process_file a_date ["!BOP"; "!EOP"] "b.f90" tokensF
                      (default_opts [])
                      (set_first false (set_begdoc true initial_state))))
  = true
  /\ tpage (state_of (process_file a_date ["!BOP"; "!EOP"] "b.f90" tokensF
                        (default_opts []) (set_tpage true initial_state)))
     = true
  /\ first (state_of (process_file a_date ["!BOP"; "!EOP"] "b.f90" tokensF
                        (default_opts [])
                        (set_first false (set_begdoc true initial_state))))
     = false.
Proof.
  destruct (run_flags_latched a_date ["!BOP"; "!EOP"] "b.f90" tokensF
              (default_opts [])
              (set_first false (set_begdoc true initial_state)))
    as (Hb & _ & Hf).
  destruct (run_flags_latched a_date ["!BOP"; "!EOP"] "b.f90" tokensF
              (default_opts []) (set_tpage true initial_state))
    as (_ & Ht & _).
  split; [| split]; [apply Hb | apply Ht | apply Hf]; reflexivity.
Defined.

(** X10.  In bare mode no line begins the document: [begdoc] is after a
    file what it was before. *)
Theorem bare_never_begins now f filename tokens opts st :
  bare opts = true ->
  begdoc (state_of (process_file now f filename tokens opts st)) = begdoc st.
Proof.
  intros Hb.
  refine (process_file_keeps (fun s => begdoc s = begdoc st) tokens opts
            now f filename _ _ _ st eq_refl); [assigns | assigns |].
  apply Forall_forall. intros raw _.
  unfold process_line, bop_block, bopi_block, do_beg; cbv zeta.
  rewrite Hb. cbv iota. keeps_steps. all: assigns.
Qed.

Lemma bare_never_begins_witness :
  begdoc (state_of (process_file a_date
                      ["!BOI"; "! !INTRODUCTION: Intro"; "!EOI"; "!BOP"; "!EOP"]
                      "a.f90" tokensF (with_bare true (default_opts []))
                      initial_state)) = false.
Proof.
  apply (bare_never_begins a_date
           ["!BOI"; "! !INTRODUCTION: Intro"; "!EOI"; "!BOP"; "!EOP"]
           "a.f90" tokensF (with_bare true (default_opts [])) initial_state).
  reflexivity.
Defined.

(** X11.  The header of the document is printed once: [do_beg] prints
    nothing and changes nothing once [begdoc] is set, [do_beg] twice is
    [do_beg] once, and outside bare mode [begdoc] is set afterwards. *)
Theorem header_printed_once b st :
  (begdoc st = true -> do_beg b st = (tt, st, []))
  /\ (do_beg b ;; do_beg b) st = do_beg b st
  /\ (b = false -> begdoc (state_of (do_beg b st)) = true).
Proof.
  destruct st as [? ? ? ? ? tp bd ? ? ? ? ? ? ? ? ? ?].
  split; [| split].
  - cbn. intros ->. destruct b; reflexivity.
  - destruct b, bd, tp; reflexivity.
  - intros ->. destruct bd, tp; reflexivity.
Qed.

Lemma header_printed_once_witness :
  do_beg false (set_begdoc true initial_state)
  = (tt, set_begdoc true initial_state, [])
  /\ begdoc (state_of (do_beg false initial_state)) = true.
Proof.
  destruct (header_printed_once false (set_begdoc true initial_state))
    as (H1 & _ & _).
  destruct (header_printed_once false initial_state) as (_ & _ & H3).
  split; [apply H1; reflexivity | apply H3; reflexivity].
Defined.

(** ** The run and its files *)

Lemma files_loop_ok w tokens opts names : forall i input st,
  fst (fst (files_loop w tokens opts i input names st))
  = forallb (readable w) names.
Proof.
  induction names as [| filename names IH]; intros i input st; simpl;
    [reflexivity |].
  unfold readable at 1.
  destruct ((filename =? "-") || (filename =? "")); simpl.
  - destruct (process_file _ _ _ _ _ _) as [[u st1] o1].
    specialize (IH (S i) [] st1).
    destruct (files_loop _ _ _ _ _ _ _) as [[ok st2] o2]. exact IH.
  - destruct (open_file w filename) as [f |]; [| reflexivity].
    destruct (process_file _ _ _ _ _ _) as [[u st1] o1].
    specialize (IH (S i) input st1).
    destruct (files_loop _ _ _ _ _ _ _) as [[ok st2] o2]. exact IH.
Qed.

(** The files after one that cannot be opened are not read. *)
Lemma files_loop_stops w tokens opts good bad rest : forall i input st,
  readable w bad = false ->
  snd (files_loop w tokens opts i input (good ++ bad :: rest) st)
  = snd (files_loop w tokens opts i input good st).
Proof.
  intros i input st Hbad. revert i input st.
  induction good as [| filename good IH]; intros i input st; simpl.
  - unfold readable in Hbad.
    destruct ((bad =? "-") || (bad =? "")); [discriminate |].
    destruct (open_file w bad); [discriminate | reflexivity].
  - destruct ((filename =? "-") || (filename =? "")).
    + destruct (process_file _ _ _ _ _ _) as [[u st1] o1].
      specialize (IH (S i) [] st1).
      destruct (files_loop _ _ _ _ _ (good ++ _) _) as [[ok st2] o2].
      destruct (files_loop _ _ _ _ _ good _) as [[ok' st2'] o2'].
      simpl in *. now rewrite IH.
    + destruct (open_file w filename) as [f |]; [| reflexivity].
      destruct (process_file _ _ _ _ _ _) as [[u st1] o1].
      specialize (IH (S i) input st1).
      destruct (files_loop _ _ _ _ _ (good ++ _) _) as [[ok st2] o2].
      destruct (files_loop _ _ _ _ _ good _) as [[ok' st2'] o2'].
      simpl in *. now rewrite IH.
Qed.


(** X13.  A file that cannot be opened ends the run where it stands: what
    is printed is the notice, the preamble, the macros and the output of the
    files before it; the files after it are not read and the document is not
    closed. *)
Theorem unreadable_file_stops_run w opts good bad rest :
  files opts = (good ++ bad :: rest)%list ->
  readable w bad = false ->
  main w opts
  = (false,
     (print_notice
      ++ (if negb (bare opts) then print_preamble (style opts) else [])
      ++ print_macros
      ++ snd (files_loop w (language_tokens (select_lang opts)) opts 0
                (stdin w) good initial_state))%list).
Proof.
  intros Hf Hbad. unfold main. rewrite Hf.
  assert (Hn : match (good ++ bad :: rest)%list with
               | [] => ["-"]
               | _ :: _ => (good ++ bad :: rest)%list
               end = (good ++ bad :: rest)%list)
    by (destruct good; reflexivity).
  rewrite Hn.
  pose proof (files_loop_ok w (language_tokens (select_lang opts)) opts
                (good ++ bad :: rest) 0 (stdin w) initial_state) as Hok.
  pose proof (files_loop_stops w (language_tokens (select_lang opts)) opts
                good bad rest 0 (stdin w) initial_state Hbad) as Hout.
  destruct (files_loop _ _ _ _ _ (good ++ bad :: rest)%list _)
    as [[ok st] body].
  simpl in Hok, Hout. rewrite forallb_app in Hok. simpl in Hok.
  rewrite Hbad, andb_false_r in Hok. subst ok body.
  simpl. rewrite app_nil_r, <- !app_assoc. reflexivity.
Qed.

Lemma unreadable_file_stops_run_witness :
  main two_files (default_opts ["a.f90"; "c.f90"; "b.f90"])
  = (false,
     (print_notice
      ++ print_preamble None
      ++ print_macros
      ++ snd (files_loop two_files tokensF
                (default_opts ["a.f90"; "c.f90"; "b.f90"]) 0 [] ["a.f90"]
                initial_state))%list).
Proof.
  apply (unreadable_file_stops_run two_files
           (default_opts ["a.f90"; "c.f90"; "b.f90"]) ["a.f90"] "c.f90"
           ["b.f90"]); reflexivity.
Defined.

(** X14.  Standard input is read once: named twice in a row, it gives its
    lines to the first file, and the second prints a banner, the empty line
    and the separator only, and leaves the state as it was. *)
Theorem stdin_read_once w tokens opts i input rest st :
  files_loop w tokens opts i input ("-" :: "-" :: rest) st
  = (let r1 := process_file (clock w i) input "-" tokens opts st in
     let r3 := files_loop w tokens opts (S (S i)) [] rest (state_of r1) in
     (fst (fst r3), snd (fst r3),
      (output_of r1
       ++ [file_banner "Standard Input" (clock w (S i)); ""; eof_separator]
       ++ snd r3)%list)).
Proof.
  cbv zeta. simpl files_loop.
  pose proof (process_file_state (clock w i) input "-" tokens opts st) as Hs.
  unfold state_of, output_of in *.
  destruct (process_file (clock w i) input "-" tokens opts st)
    as [[u s1] o1].
  simpl in Hs.
  assert (Hsrc : source s1 = false).
  { rewrite Hs. cbv zeta.
    destruct (source (snd (fst (process_lines tokens opts
                                  (file_basename_of "-") input st)))) eqn:E;
      [reflexivity | exact E]. }
  assert (He : process_file (clock w (S i)) [] "-" tokens opts s1
               = (tt, s1, [file_banner "Standard Input" (clock w (S i)); "";
                           eof_separator])).
  { unfold process_file; cbv zeta. run_cmd. simpl. rewrite Hsrc.
    reflexivity. }
  rewrite He. simpl.
  destruct (files_loop w tokens opts (S (S i)) [] rest s1) as [[ok s3] o3].
  reflexivity.
Qed.

(** X15.  In the introduction the title keyword is seen in the field after
    the marker field only.  There it is captured, and the title is the
    keyword with the text after it; in the marker field itself it is not
    captured, and outside a prologue the line is printed as text, without
    its comment prefix. *)
Theorem intro_keyword_position lang opts fb raw st :
  intro st = true ->
  (forall more,
     marker_of raw <> "!QUOTE:" ->
     marker_of raw <> boi (language_tokens lang) ->
     rest_of raw = "!TITLE:" :: more ->
     process_line (language_tokens lang) opts fb raw st
     = (tt, set_tpage true (set_title (join " " ("!TITLE:" :: more)) st), []))
  /\ (prologue st = false ->
      marker_of raw = "!TITLE:" ->
      intro_rule_fires st raw = false ->
      process_line (language_tokens lang) opts fb raw st
      = (tt, st,
         [if startswith (line_of raw) (comment (language_tokens lang))
          then drop (String.length (comment (language_tokens lang)))
                 (line_of raw)
          else line_of raw])).
Proof.
  intros Hin. split.
  - intros more Hq Hb Hrest.
    destruct (intro_tests_rest raw) as (Hlt & Hnth & Hpop).
    rewrite Hrest in Hlt, Hnth, Hpop. simpl in Hlt, Hnth.
    assert (H1 : (length (fields_of raw) <=? mi_of raw)%nat = false).
    { apply Nat.leb_gt. apply Nat.ltb_lt in Hlt. lia. }
    apply String.eqb_neq in Hq, Hb.
    expose raw. rewrite H1, Hq, Hb, Hlt, Hnth, Hpop, andb_false_r.
    rewrite bind_get, Hin. reflexivity.
  - intros Hp Hm Hi.
    destruct (marker_in_range raw _ Hm) as [H1 H2]; [discriminate |].
    intro_off Hi.
    expose raw. rewrite H1, H2, Hm.
    destruct lang; simpl; rewrite bind_get; rewrite_false; rewrite Hin;
      reflexivity.
Qed.

Lemma intro_keyword_position_witness :
  process_line tokensF (default_opts []) "a.f90" "!x !TITLE: My Document"
    (set_intro true initial_state)
  = (tt,
     set_tpage true
       (set_title "!TITLE: My Document" (set_intro true initial_state)), [])
  /\ process_line tokensF (default_opts []) "a.f90" "!TITLE: My Document"
       (set_intro true initial_state)
     = (tt, set_intro true initial_state, ["TITLE: My Document"]).
Proof.
  destruct (intro_keyword_position LangF (default_opts []) "a.f90"
              "!x !TITLE: My Document" (set_intro true initial_state) eq_refl)
    as [Hc _].
  destruct (intro_keyword_position LangF (default_opts []) "a.f90"
              "!TITLE: My Document" (set_intro true initial_state) eq_refl)
    as [_ He].
  split.
  - apply (Hc ["My"; "Document"]); [discriminate | discriminate | reflexivity].
  - apply He; reflexivity.
Defined.

Section Basename.

Lemma basename_from_no_slash (s : string) : forall acc,
  no_slash s = true -> basename_from acc s = acc ++ s.
Proof.
  induction s as [| c s IH]; intros acc H; simpl.
  - now rewrite string_app_nil_r.
  - simpl in H. apply andb_true_iff in H as [Hc Hs].
    apply negb_true_iff in Hc. rewrite Hc, (IH _ Hs).
    now rewrite string_app_assoc.
Qed.

Lemma basename_from_dir (dir name : string) : forall acc,
  basename_from acc (dir ++ String "/" name) = basename_from "" name.
Proof.
  induction dir as [| c dir IH]; intros acc; simpl; [reflexivity |].
  destruct (Ascii.eqb c "/"); apply IH.
Qed.

Lemma path_not_dash (dir name : string) :
  (dir ++ String "/" name =? "-") = false.
Proof.
  destruct dir as [| c dir]; [reflexivity |].
  apply String.eqb_neq. simpl. intros H. inversion H.
  destruct dir; discriminate.
Qed.

End Basename.

(** X16.  The file is named without its directories, underscores escaped:
    the name of a path is the escape of what follows its last slash. *)
Theorem file_basename_drops_directories dir name :
  no_slash name = true ->
  file_basename_of (dir ++ "/" ++ name) = escape name
  /\ (name <> "-" -> file_basename_of name = escape name).
Proof.
  intros Hn. unfold file_basename_of, escape, basename. split.
  - change (dir ++ "/" ++ name) with (dir ++ String "/" name).
    rewrite path_not_dash. simpl negb. cbv iota.
    now rewrite basename_from_dir, basename_from_no_slash.
  - intros Hd. apply String.eqb_neq in Hd. rewrite Hd. simpl negb. cbv iota.
    now rewrite basename_from_no_slash.
Qed.

Lemma file_basename_drops_directories_witness :
  file_basename_of ("src/core" ++ "/" ++ "my_mod.f90") = "my\_mod.f90"
  /\ file_basename_of "my_mod.f90" = "my\_mod.f90".
Proof.
  destruct (file_basename_drops_directories "src/core" "my_mod.f90" eq_refl)
    as [Hd Hn].
  split; [exact Hd | apply Hn; discriminate].
Defined.

Section Normalised.

Lemma rstrip_nl (s : string) : rstrip LF (s ++ nl) = rstrip LF s.
Proof.
  induction s as [| c s IH]; simpl; [reflexivity | now rewrite IH].
Qed.

Lemma rstrip_app_kept (a b : string) :
  rstrip LF b <> "" -> rstrip LF (a ++ b) = a ++ rstrip LF b.
Proof.
  intros Hb. induction a as [| x a IH]; simpl; [reflexivity |].
  rewrite IH. destruct (a ++ rstrip LF b) eqn:E.
  - destruct a; [simpl in E; contradiction | discriminate].
  - now rewrite andb_false_r.
Qed.

Lemma all_space_app (a b : string) :
  all_space (a ++ b) = all_space a && all_space b.
Proof.
  induction a as [| c a IH]; simpl; [reflexivity |].
  rewrite IH. now rewrite andb_assoc.
Qed.

Lemma rstrip_empty_all_space (s : string) :
  rstrip LF s = "" -> all_space s = true.
Proof.
  induction s as [| c s IH]; simpl; [reflexivity |].
  destruct (Ascii.eqb_spec c LF) as [-> | Hc]; simpl.
  - destruct (rstrip LF s) eqn:E; [| discriminate]. intros _. now apply IH.
  - discriminate.
Qed.

Lemma lstrip_blank (s : string) : all_space s = true -> lstrip s = "".
Proof.
  intros H. rewrite <- (string_app_nil_r s). now rewrite lstrip_all_space.
Qed.

Lemma line_of_indent (lead raw : string) :
  all_space lead = true -> line_of (lead ++ raw) = line_of raw.
Proof.
  intros Hl. unfold line_of.
  destruct (rstrip LF raw) eqn:E.
  - simpl. apply lstrip_blank, rstrip_all_space.
    rewrite all_space_app, Hl. now apply rstrip_empty_all_space.
  - rewrite rstrip_app_kept by (rewrite E; discriminate).
    rewrite lstrip_all_space by exact Hl. now rewrite E.
Qed.

End Normalised.

(** X17.  The white space before a line and the line feed after it do not
    count: with or without them the line is processed the same, in every
    state; the indentation of a line of code is not printed. *)
Theorem indentation_ignored tokens opts fb lead raw st :
  all_space lead = true ->
  process_line tokens opts fb (lead ++ raw) st
  = process_line tokens opts fb raw st
  /\ process_line tokens opts fb (raw ++ nl) st
     = process_line tokens opts fb raw st.
Proof.
  intros Hl. unfold process_line; cbv zeta. split.
  - change (lstrip (rstrip LF (lead ++ raw))) with (line_of (lead ++ raw)).
    now rewrite (line_of_indent _ _ Hl).
  - now rewrite rstrip_nl.
Qed.

Lemma indentation_ignored_witness :
  process_line tokensF (default_opts []) "a.f90" ("      " ++ "x = 1")
    (set_source true initial_state)
  = process_line tokensF (default_opts []) "a.f90" "x = 1"
      (set_source true initial_state)
  /\ process_line tokensF (default_opts []) "a.f90" ("x = 1" ++ nl)
       (set_source true initial_state)
     = process_line tokensF (default_opts []) "a.f90" "x = 1"
         (set_source true initial_state).
Proof.
  apply (indentation_ignored tokensF (default_opts []) "a.f90" "      "
           "x = 1" (set_source true initial_state)).
  reflexivity.
Defined.
